(** * lammps_log_plot.py: the thermo-block segmenter and the query engine

    A shallow embedding of [parse_lammps_log] and [main] of
    [lammps_log_plot.py], and the properties its specification states
    about them.

    - Python strings are [string]s: a character is a code point below 256.
    - An exception is a value of [exn]; a computation returns an [outcome].
    - The two [while] loops of [parse_lammps_log] keep their cursor [i];
      they run on fuel, and the fuel given is shown to be enough.
    - [float(...)] is a parameter of the segmenter; [Float64] gives the
      binary64 instance on Rocq's primitive floats. *)

From Stdlib Require Import String Ascii.
From Stdlib Require Import List Arith Lia Bool ZArith.
From Stdlib Require Import Floats.
Import ListNotations.

(** ** Python strings *)

Module Str.

(** [str.isspace] on one character, for code points below 256:
    U+0009..U+000D, U+001C..U+0020, U+0085 and U+00A0. *)
Definition isspace (c : ascii) : bool :=
  let n := nat_of_ascii c in
  ((9 <=? n) && (n <=? 13)) || ((28 <=? n) && (n <=? 32))
  || (n =? 133) || (n =? 160).

Fixpoint lstrip (s : string) : string :=
  match s with
  | EmptyString => EmptyString
  | String c s' => if isspace c then lstrip s' else s
  end.

Fixpoint rstrip (s : string) : string :=
  match s with
  | EmptyString => EmptyString
  | String c s' =>
      match rstrip s' with
      | EmptyString => if isspace c then EmptyString else String c EmptyString
      | r => String c r
      end
  end.

(** [s.strip()] *)
Definition strip (s : string) : string := rstrip (lstrip s).

(** [s.split()]: the maximal runs of characters that are not whitespace. *)
Fixpoint split (s : string) : list string :=
  match s with
  | EmptyString => []
  | String c s' =>
      if isspace c then split s'
      else match s' with
           | EmptyString => [String c EmptyString]
           | String c' _ =>
               if isspace c' then String c EmptyString :: split s'
               else match split s' with
                    | w :: ws => String c w :: ws
                    | [] => [String c EmptyString]
                    end
           end
  end.

(** [s.startswith(p)] *)
Fixpoint startswith (s p : string) {struct p} : bool :=
  match p with
  | EmptyString => true
  | String a p' =>
      match s with
      | String b s' => Ascii.eqb a b && startswith s' p'
      | EmptyString => false
      end
  end.

(** [not s], the truth value of a string. *)
Definition is_empty (s : string) : bool :=
  match s with EmptyString => true | _ => false end.

Definition LF : ascii := ascii_of_nat 10.
Definition CR : ascii := ascii_of_nat 13.

(** Text mode with universal newlines: CR LF and a lone CR are read as LF. *)
Fixpoint universal_newlines (s : string) : string :=
  match s with
  | EmptyString => EmptyString
  | String c s' =>
      if Ascii.eqb c CR then
        match s' with
        | String c' s'' =>
            if Ascii.eqb c' LF then String LF (universal_newlines s'')
            else String LF (universal_newlines s')
        | EmptyString => String LF EmptyString
        end
      else String c (universal_newlines s')
  end.

(** The lines of a text, each with its ending LF (the last may have none). *)
Fixpoint keep_lines (s : string) : list string :=
  match s with
  | EmptyString => []
  | String c s' =>
      if Ascii.eqb c LF then String c EmptyString :: keep_lines s'
      else match keep_lines s' with
           | l :: ls => String c l :: ls
           | [] => [String c EmptyString]
           end
  end.

(** [f.readlines()] on a file opened with [open(path, "r")]. *)
Definition readlines (content : string) : list string :=
  keep_lines (universal_newlines content).

End Str.

(** ** Exceptions, outcomes and loops *)

Inductive exn : Set := ValueError | IndexError | KeyError.

(** What running a piece of the program gives: a value, an exception that
    nothing caught, or [OutOfFuel] when the model's loop counter ran out. *)
Inductive outcome (A : Type) : Type :=
| Ret (a : A)
| Raise (e : exn)
| OutOfFuel.
Arguments Ret {A} a.
Arguments Raise {A} e.
Arguments OutOfFuel {A}.

Definition bind {A B : Type} (m : outcome A) (k : A -> outcome B) : outcome B :=
  match m with
  | Ret a => k a
  | Raise e => Raise e
  | OutOfFuel => OutOfFuel
  end.

Declare Scope py_scope.
Delimit Scope py_scope with py.
Notation "x <- m ;; k" := (bind m (fun x => k))
  (at level 61, m at next level, right associativity) : py_scope.
Notation "' p <- m ;; k" := (bind m (fun x => let p := x in k))
  (at level 61, p pattern, m at next level, right associativity) : py_scope.
Open Scope py_scope.

(** How one run of a loop body ends: at its last statement, or at [break]. *)
Inductive flow (S : Type) : Type :=
| Next (s : S)
| Break (s : S).
Arguments Next {S} s.
Arguments Break {S} s.

(** [while cond: body] on the loop's variables [s]. *)
Fixpoint while {S : Type} (fuel : nat) (cond : S -> bool)
    (body : S -> outcome (flow S)) (s : S) : outcome S :=
  match fuel with
  | O => OutOfFuel
  | Datatypes.S fuel' =>
      if cond s then
        match body s with
        | Ret (Next s') => while fuel' cond body s'
        | Ret (Break s') => Ret s'
        | Raise e => Raise e
        | OutOfFuel => OutOfFuel
        end
      else Ret s
  end.

(** [l[i]] for [i >= 0]. *)
Definition getitem {A : Type} (l : list A) (i : nat) : outcome A :=
  match nth_error l i with
  | Some a => Ret a
  | None => Raise IndexError
  end.

(** ** The data model *)

(** A thermo block, [pd.DataFrame(data, columns=headers)]: the column
    labels and the rows in file order. *)
Record Run (F : Type) : Type := mkRun {
  columns : list string;
  rows : list (list F)
}.
Arguments mkRun {F} columns rows.
Arguments columns {F} r.
Arguments rows {F} r.

(** The invariant of the data model: at least one row, and every row as
    long as the list of columns. *)
Definition well_formed {F : Type} (r : Run F) : Prop :=
  rows r <> [] /\ Forall (fun row => length row = length (columns r)) (rows r).

(** ** The segmenter: [parse_lammps_log] *)

Section Segmenter.

Context {F : Type}.

(** [float(s)]: [None] when Python raises [ValueError]. *)
Variable float : string -> option F.

(** [[float(p) for p in parts]] *)
Fixpoint floats (parts : list string) : outcome (list F) :=
  match parts with
  | [] => Ret []
  | p :: ps =>
      match float p with
      | None => Raise ValueError
      | Some v => vs <- floats ps ;; Ret (v :: vs)
      end
  end.

Section Loops.

Variable lines : list string.

(** One run of the body of the inner [while i < n] (source lines 61-84);
    the loop's variables are the cursor [i] and [data]. *)
Definition inner_body (headers : list string) (st : nat * list (list F))
  : outcome (flow (nat * list (list F))) :=
  let '(i, data) := st in
  raw <- getitem lines i ;;
  let line := Str.strip raw in
  if Str.is_empty line then Ret (Break (i, data))
  else
    let parts := Str.split line in
    p0 <- getitem parts 0 ;;
    match float p0 with
    | None => Ret (Break (i, data))
    | Some _ =>
        if negb (length parts =? length headers) then Ret (Break (i, data))
        else row <- floats parts ;; Ret (Next (S i, data ++ [row]))
    end.

(** One run of the body of the outer [while i < n] (source lines 52-90);
    the loop's variables are the cursor [i] and [runs]. *)
Definition outer_body (fuel : nat) (st : nat * list (Run F))
  : outcome (flow (nat * list (Run F))) :=
  let '(i, runs) := st in
  raw <- getitem lines i ;;
  let line := Str.strip raw in
  if Str.startswith line "Step"%string then
    let headers := Str.split line in
    '(i', data) <- while fuel (fun st => fst st <? length lines)
                     (inner_body headers) (S i, []) ;;
    match data with
    | [] => Ret (Next (i', runs))
    | _ :: _ => Ret (Next (i', runs ++ [mkRun headers data]))
    end
  else Ret (Next (S i, runs)).

(** The scan of source lines 48-92, on [fuel] for each loop. *)
Definition scan (fuel : nat) : outcome (list (Run F)) :=
  '(_, runs) <- while fuel (fun st => fst st <? length lines)
                  (outer_body fuel) (0, []) ;;
  Ret runs.

End Loops.

(** Source lines 43-92 on the list [lines] that [readlines] gave. Each
    loop gets one unit of fuel more than there are lines. *)
Definition parse_lines (lines : list string) : outcome (list (Run F)) :=
  scan lines (S (length lines)).

(** [parse_lammps_log(path)], on the content of the file at [path]. *)
Definition parse_lammps_log (content : string) : outcome (list (Run F)) :=
  parse_lines (Str.readlines content).

(** *** The scan, line by line *)

(** The test of the outer loop (source line 55). *)
Definition is_header (raw : string) : bool :=
  Str.startswith (Str.strip raw) "Step"%string.

Definition header_of (raw : string) : list string :=
  Str.split (Str.strip raw).

Definition is_blank (raw : string) : bool :=
  Str.is_empty (Str.strip raw).

Definition numeric (p : string) : bool :=
  match float p with Some _ => true | None => false end.

(** Python's [float] accepts a sign, digits, a point, an exponent and the
    words [inf], [infinity] and [nan]: no token that starts with [Step]. *)
Definition rejects_Step : Prop :=
  forall t : string, Str.startswith t "Step"%string = true -> float t = None.

(** The three checks of the inner loop (source lines 64-78) on one line:
    it is not blank, its first token converts, and it has as many tokens
    as the header. *)
Definition data_line (headers : list string) (raw : string) : bool :=
  negb (is_blank raw)
  && match Str.split (Str.strip raw) with
     | p0 :: _ => numeric p0
     | [] => false
     end
  && (length (Str.split (Str.strip raw)) =? length headers).

(** The conversion of source line 81 on one line. *)
Definition row_of (raw : string) : outcome (list F) :=
  floats (Str.split (Str.strip raw)).

(** The rows of the longest run of data lines at the head of [ls], and how
    many lines that is. *)
Fixpoint collect (headers : list string) (ls : list string)
  : outcome (list (list F) * nat) :=
  match ls with
  | [] => Ret ([], 0)
  | raw :: ls' =>
      if data_line headers raw then
        row <- row_of raw ;;
        '(rs, k) <- collect headers ls' ;;
        Ret (row :: rs, S k)
      else Ret ([], 0)
  end.

(** Source lines 86-88. *)
Definition emit (headers : list string) (data : list (list F)) : list (Run F) :=
  match data with
  | [] => []
  | _ :: _ => [mkRun headers data]
  end.

(** The runs of a list of lines, block after block; the first [skip]
    lines are rows of the block before them and are passed over. *)
Fixpoint segment_from (skip : nat) (ls : list string)
  : outcome (list (Run F)) :=
  match ls with
  | [] => Ret []
  | raw :: ls' =>
      match skip with
      | S j => segment_from j ls'
      | O =>
          if is_header raw then
            '(rs, k) <- collect (header_of raw) ls' ;;
            runs <- segment_from k ls' ;;
            Ret (emit (header_of raw) rs ++ runs)
          else segment_from 0 ls'
      end
  end.

Definition segment (ls : list string) : outcome (list (Run F)) :=
  segment_from 0 ls.

(** Lines taken out of a list of lines, in their order: every line of the
    list is taken at most once. *)
Inductive subseq : list string -> list string -> Prop :=
| subseq_nil : subseq [] []
| subseq_take (l : string) (ls' ls : list string) :
    subseq ls' ls -> subseq (l :: ls') (l :: ls)
| subseq_pass (l : string) (ls' ls : list string) :
    subseq ls' ls -> subseq ls' (l :: ls).

End Segmenter.

(** ** The query engine: [main] *)

(** The arguments as [argparse] gives them ([args] in the source). [y] and
    [avg_cols] are [None] when the option is absent. *)
Module Args.
Record t (F : Type) : Type := mk {
  logfile : string;
  run : Z;
  x : string;
  y : option (list string);
  x_min : option F;
  x_max : option F;
  avg_cols : option (list string);
  list : bool
}.
Arguments mk {F}.
Arguments logfile {F}.
Arguments run {F}.
Arguments x {F}.
Arguments y {F}.
Arguments x_min {F}.
Arguments x_max {F}.
Arguments avg_cols {F}.
Arguments list {F}.

(** The same arguments with other bounds of the range. *)
Definition with_bounds {F : Type} (a : t F) (lo hi : option F) : t F :=
  mk (logfile a) (run a) (x a) (y a) lo hi (avg_cols a) (list a).

End Args.

(** What pandas computes on a column of numbers: the comparisons of a
    column with a bound, and [Series.mean], [Series.min], [Series.max]. *)
Record SeriesOps (F : Type) : Type := {
  series_ge : F -> F -> bool;
  series_le : F -> F -> bool;
  series_mean : list F -> F;
  series_min : list F -> F;
  series_max : list F -> F
}.
Arguments series_ge {F}.
Arguments series_le {F}.
Arguments series_mean {F}.
Arguments series_min {F}.
Arguments series_max {F}.

(** The figure that [plt.show()] displays (source lines 221-238). *)
Record figure (F : Type) : Type := mkFigure {
  xlabel : string;
  ylabel : list string;
  x_values : list F;
  series : list (string * list F);
  title_logfile : string;
  title_run : Z;
  title_filtered : bool
}.
Arguments mkFigure {F}.
Arguments series {F}.
Arguments x_values {F}.

(** What [main] writes, one constructor for each [print] of the source and
    one for the figure. *)
Inductive output (F : Type) : Type :=
| NoRunsFound
| FoundRuns (n : nat) (logfile : string)
| RunListing (idx nrows : nat) (cols : list string)
| OutOfRange (run_idx : Z) (n : nat)
| UnknownXColumn (x : string) (run_idx : Z)
| AvailableColumns (cols : list string)
| EmptyResult
| NothingRequested
| UnknownYColumns (run_idx : Z)
| UnknownAvgColumns
| Missing (cols : list string)
| AveragesHeader (run_idx : Z) (x : string) (lo hi : F)
| Average (col : string) (mean_val : F)
| Figure (fig : figure F).
Arguments NoRunsFound {F}.
Arguments FoundRuns {F}.
Arguments RunListing {F}.
Arguments OutOfRange {F}.
Arguments UnknownXColumn {F}.
Arguments AvailableColumns {F}.
Arguments EmptyResult {F}.
Arguments NothingRequested {F}.
Arguments UnknownYColumns {F}.
Arguments UnknownAvgColumns {F}.
Arguments Missing {F}.
Arguments AveragesHeader {F}.
Arguments Average {F}.
Arguments Figure {F}.

Section Query.

Context {F : Type}.
Variable float : string -> option F.
Variable ops : SeriesOps F.

(** [name in df.columns] *)
Definition contains (cols : list string) (name : string) : bool :=
  existsb (String.eqb name) cols.

Fixpoint index_of (name : string) (cols : list string) : option nat :=
  match cols with
  | [] => None
  | c :: cs =>
      if String.eqb name c then Some 0
      else match index_of name cs with
           | Some j => Some (S j)
           | None => None
           end
  end.

(** The cells at position [j] of the rows, in row order. *)
Fixpoint cells (j : nat) (rws : list (list F)) : outcome (list F) :=
  match rws with
  | [] => Ret []
  | r :: rs => v <- getitem r j ;; vs <- cells j rs ;; Ret (v :: vs)
  end.

(** [df[name]], the column of a label. The labels of a run are taken to be
    distinct, as the data model says; with a repeated label pandas gives a
    frame and not a column, which this model does not cover. *)
Definition column (df : Run F) (name : string) : outcome (list F) :=
  match index_of name (columns df) with
  | Some j => cells j (rows df)
  | None => Raise KeyError
  end.

(** [df[mask]]: the rows where the mask holds, in row order. *)
Definition select (df : Run F) (mask : list bool) : Run F :=
  mkRun (columns df) (map fst (filter snd (combine (rows df) mask))).

(** [df.empty] *)
Definition empty (df : Run F) : bool :=
  match rows df, columns df with
  | _ :: _, _ :: _ => false
  | _, _ => true
  end.

(** The names of an option that takes one or more: none when it is absent. *)
Definition given (cols : option (list string)) : list string :=
  match cols with
  | Some l => l
  | None => []
  end.

(** An option that names no column: it is absent, or empty. *)
Definition no_column (cols : list string) : bool :=
  match cols with [] => true | _ :: _ => false end.

Definition is_none {A : Type} (o : option A) : bool :=
  match o with None => true | Some _ => false end.

(** Source lines 174-179: the rows of [df] in the range of [x]. *)
Definition x_range_filter (args : Args.t F) (df : Run F) : outcome (Run F) :=
  df_sel <- match Args.x_min args with
            | Some a =>
                xs <- column df (Args.x args) ;;
                Ret (select df (map (fun v => series_ge ops v a) xs))
            | None => Ret df
            end ;;
  match Args.x_max args with
  | Some b =>
      xs <- column df_sel (Args.x args) ;;
      Ret (select df_sel (map (fun v => series_le ops v b) xs))
  | None => Ret df_sel
  end.

(** The value of a row in the column of a label ([d] where there is none). *)
Definition cell (d : F) (df : Run F) (name : string) (row : list F) : F :=
  match index_of name (columns df) with
  | Some j => nth j row d
  | None => d
  end.

(** The test of the filtered view on an [x] value: each bound that is
    given holds. *)
Definition in_range (x_min x_max : option F) (v : F) : bool :=
  match x_min with Some a => series_ge ops v a | None => true end
  && match x_max with Some b => series_le ops v b | None => true end.

(** A bound of the effective range that the averages are written with:
    the bound given, or else what [pick] finds in the [x] column. *)
Definition bound (d : F) (given_bound : option F) (pick : list F -> F)
    (df_sel : Run F) (x : string) : F :=
  match given_bound with
  | Some a => a
  | None => pick (map (cell d df_sel x) (rows df_sel))
  end.

(** The columns asked for that the run does not have. *)
Definition missing (df : Run F) (cols : list string) : list string :=
  filter (fun col => negb (contains (columns df) col)) cols.

Fixpoint for_each {A B : Type} (f : A -> outcome B) (l : list A)
  : outcome (list B) :=
  match l with
  | [] => Ret []
  | a :: l' => b <- f a ;; bs <- for_each f l' ;; Ret (b :: bs)
  end.

(** Source lines 203-218. *)
Definition averages (args : Args.t F) (df df_sel : Run F)
  : outcome (list (output F)) :=
  match given (Args.avg_cols args) with
  | [] => Ret []
  | _ :: _ =>
      match missing df (given (Args.avg_cols args)) with
      | (_ :: _) as missing_avg =>
          Ret [UnknownAvgColumns; Missing missing_avg;
               AvailableColumns (columns df)]
      | [] =>
          lo <- match Args.x_min args with
                | Some a => Ret a
                | None => xs <- column df_sel (Args.x args) ;;
                          Ret (series_min ops xs)
                end ;;
          hi <- match Args.x_max args with
                | Some b => Ret b
                | None => xs <- column df_sel (Args.x args) ;;
                          Ret (series_max ops xs)
                end ;;
          avgs <- for_each
                    (fun col => vs <- column df_sel col ;;
                                Ret (Average col (series_mean ops vs)))
                    (given (Args.avg_cols args)) ;;
          Ret (AveragesHeader (Args.run args) (Args.x args) lo hi :: avgs)
      end
  end.

(** Source lines 221-238. *)
Definition plot (args : Args.t F) (df_sel : Run F) : outcome (list (output F)) :=
  match given (Args.y args) with
  | [] => Ret []
  | _ :: _ =>
      xs <- column df_sel (Args.x args) ;;
      lines <- for_each (fun col => vs <- column df_sel col ;; Ret (col, vs))
                 (given (Args.y args)) ;;
      Ret [Figure (mkFigure (Args.x args) (given (Args.y args)) xs lines
                     (Args.logfile args) (Args.run args)
                     (negb (is_none (Args.x_min args))
                      || negb (is_none (Args.x_max args))))]
  end.

(** Source lines 146-152. *)
Definition listing (args : Args.t F) (runs : list (Run F)) : list (output F) :=
  if Args.list args then
    FoundRuns (length runs) (Args.logfile args)
    :: map (fun '(idx, df) => RunListing idx (length (rows df)) (columns df))
         (combine (seq 1 (length runs)) runs)
  else [].

(** Source lines 181-238: what [main] does with the filtered view. *)
Definition respond (args : Args.t F) (runs : list (Run F)) (df df_sel : Run F)
  : outcome (list (output F)) :=
  if empty df_sel then Ret (listing args runs ++ [EmptyResult])
  else
  if no_column (given (Args.y args)) && no_column (given (Args.avg_cols args))
  then Ret (listing args runs ++ [NothingRequested])
  else
  match missing df (given (Args.y args)) with
  | (_ :: _) as missing_y =>
      Ret (listing args runs
           ++ [UnknownYColumns (Args.run args); Missing missing_y;
               AvailableColumns (columns df)])
  | [] =>
      avg_out <- averages args df df_sel ;;
      plot_out <- plot args df_sel ;;
      Ret (listing args runs ++ avg_out ++ plot_out)
  end.

(** Source lines 168-238: what [main] does with the run it selected. *)
Definition on_run (args : Args.t F) (runs : list (Run F)) (df : Run F)
  : outcome (list (output F)) :=
  if negb (contains (columns df) (Args.x args))
  then Ret (listing args runs
            ++ [UnknownXColumn (Args.x args) (Args.run args);
                AvailableColumns (columns df)])
  else
  df_sel <- x_range_filter args df ;;
  respond args runs df df_sel.

(** Source lines 141-238: [main] from the runs that were parsed. *)
Definition query (args : Args.t F) (runs : list (Run F))
  : outcome (list (output F)) :=
  match runs with
  | [] => Ret [NoRunsFound]
  | _ :: _ =>
  if Args.list args && is_none (Args.y args) && is_none (Args.avg_cols args)
  then Ret (listing args runs)
  else
  let run_idx := Args.run args in
  if ((run_idx <? 1) || (Z.of_nat (length runs) <? run_idx))%Z
  then Ret (listing args runs ++ [OutOfRange run_idx (length runs)])
  else
  df <- getitem runs (Z.to_nat (run_idx - 1)) ;;
  on_run args runs df
  end.

(** The run that [main] selects: the listing alone was not asked for, and
    the index is in range. *)
Definition selects (args : Args.t F) (runs : list (Run F)) (df : Run F) : Prop :=
  Args.list args && is_none (Args.y args) && is_none (Args.avg_cols args)
    = false
  /\ (1 <= Args.run args <= Z.of_nat (length runs))%Z
  /\ nth_error runs (Z.to_nat (Args.run args - 1)) = Some df.

(** Every row is as long as the list of columns. *)
Definition rectangular (df : Run F) : Prop :=
  Forall (fun row => length row = length (columns df)) (rows df).

(** [main()], on the arguments and the content of the log file. *)
Definition main (args : Args.t F) (content : string)
  : outcome (list (output F)) :=
  runs <- parse_lammps_log float content ;;
  query args runs.

End Query.

(** ** Binary64 numbers: Python's [float] *)

Module Float64.

(** A Python [float] is an IEEE 754 binary64 number: Rocq's primitive
    [float]. [float(s)], the comparisons of pandas and [Series.mean] are
    library code; they are written out here as CPython, pandas and numpy
    compute them. *)

Local Open Scope Z_scope.

Definition is_digit (c : ascii) : bool :=
  let n := nat_of_ascii c in ((48 <=? n) && (n <=? 57))%nat.

Definition digit_val (c : ascii) : Z := Z.of_nat (nat_of_ascii c) - 48.

Definition is_char (c : ascii) (n : nat) : bool := (nat_of_ascii c =? n)%nat.

(** ASCII lower case of one character. *)
Definition lower (c : ascii) : ascii :=
  let n := nat_of_ascii c in
  if ((65 <=? n) && (n <=? 90))%nat then ascii_of_nat (n + 32) else c.

Fixpoint lower_str (s : string) : string :=
  match s with
  | EmptyString => EmptyString
  | String c s' => String (lower c) (lower_str s')
  end.

(** The rest of a [digitpart] after a digit: [(["_"] digit)*]. Gives the
    digits read and what follows them. *)
Fixpoint digits_tail (s : string) : list Z * string :=
  match s with
  | EmptyString => ([], s)
  | String c s' =>
      if is_digit c then
        let '(ds, r) := digits_tail s' in (digit_val c :: ds, r)
      else if is_char c 95 then
        match s' with
        | String c' s'' =>
            if is_digit c' then
              let '(ds, r) := digits_tail s'' in (digit_val c' :: ds, r)
            else ([], s)
        | EmptyString => ([], s)
        end
      else ([], s)
  end.

(** A [digitpart] at the head of [s], if there is one: no digits otherwise. *)
Definition digitpart (s : string) : list Z * string :=
  match s with
  | String c s' =>
      if is_digit c then
        let '(ds, r) := digits_tail s' in (digit_val c :: ds, r)
      else ([], s)
  | EmptyString => ([], s)
  end.

Definition of_digits (ds : list Z) : Z :=
  fold_left (fun acc d => 10 * acc + d) ds 0.

(** An optional sign: [true] for a minus. *)
Definition sign_of (s : string) : bool * string :=
  match s with
  | String c s' =>
      if is_char c 45 then (true, s')
      else if is_char c 43 then (false, s')
      else (false, s)
  | EmptyString => (false, s)
  end.

(** The number nearest to [p / q] for [p, q > 0], ties to even. *)
Definition round_ratio (p q : Z) : float :=
  let e0 := Z.log2 p - Z.log2 q - 53 in
  let quo e := if 0 <=? e then p / (q * 2 ^ e) else (p * 2 ^ (- e)) / q in
  let e1 := if 2 ^ 53 <=? quo e0 then e0 + 1 else e0 in
  let e := Z.max e1 (-1074) in
  let '(n, d) := if 0 <=? e then (p, q * 2 ^ e) else (p * 2 ^ (- e), q) in
  let m := n / d in
  let r := n mod d in
  let m' := if (d <? 2 * r) || ((d =? 2 * r) && Z.odd m) then m + 1 else m in
  Z.ldexp (PrimFloat.of_uint63 (Uint63.of_Z m')) e.

(** The value of the decimal [m * 10 ^ e10], correctly rounded. *)
Definition of_decimal (neg : bool) (m e10 : Z) : float :=
  let v := if m =? 0 then PrimFloat.zero
           else if 0 <=? e10 then round_ratio (m * 10 ^ e10) 1
           else round_ratio m (10 ^ (- e10)) in
  if neg then PrimFloat.opp v else v.

(** [floatnumber]: [number [exponent]] with nothing after it. *)
Definition floatnumber (neg : bool) (s : string) : option float :=
  let '(ip, r1) := digitpart s in
  let '(fp, r2, dot) :=
    match r1 with
    | String c r1' =>
        if is_char c 46 then let '(fp, r2) := digitpart r1' in (fp, r2, true)
        else ([], r1, false)
    | EmptyString => ([], r1, false)
    end in
  let ok_number :=
    match ip, fp with
    | [], [] => false
    | _, _ => true
    end in
  if negb ok_number then None
  else
    let m := of_digits (ip ++ fp) in
    let frac := Z.of_nat (List.length fp) in
    match r2 with
    | EmptyString => Some (of_decimal neg m (- frac))
    | String c r3 =>
        if is_char (lower c) 101 then
          let '(eneg, r4) := sign_of r3 in
          match digitpart r4 with
          | ([], _) => None
          | (ed, EmptyString) =>
              let e := of_digits ed in
              Some (of_decimal neg m ((if eneg then - e else e) - frac))
          | (_, String _ _) => None
          end
        else None
    end.

(** [float(s)] for a string [s]:
    [[sign] (floatnumber | "inf" | "infinity" | "nan")] between optional
    whitespace, letters in either case. *)
Definition py_float (s : string) : option float :=
  let '(neg, body) := sign_of (Str.strip s) in
  let low := lower_str body in
  if (String.eqb low "inf" || String.eqb low "infinity")%string
  then Some (if neg then PrimFloat.neg_infinity else PrimFloat.infinity)
  else if String.eqb low "nan" then Some PrimFloat.nan
  else floatnumber neg body.

Local Open Scope float_scope.

(** [v >= a] and [v <= b] on a column: IEEE 754 comparisons, false when
    either side is NaN. *)
Definition ge (v a : float) : bool := PrimFloat.leb a v.
Definition le (v b : float) : bool := PrimFloat.leb v b.

Definition not_nan (v : float) : bool := negb (PrimFloat.is_nan v).

(** A count as a number. *)
Definition of_count (n : nat) : float :=
  PrimFloat.of_uint63 (Uint63.of_Z (Z.of_nat n)).

(** The sum that [Series.mean] divides is numpy's [add.reduce] of the
    column. numpy adds the rows in pairs ([pairwise_sum] in its loops):
    fewer than 8 rows are added to [-0] in row order; for 8 to 128 rows,
    eight running sums take the rows eight at a time, the eight are added
    as a tree, and the rows left over are added in row order; a longer
    column is cut in two at a multiple of 8, and the sums of the two parts
    are added. *)
Definition add_rows (res : float) (a : list float) : float :=
  fold_left PrimFloat.add a res.

(** [r[j] += a[i + j]] for the next eight rows, [blocks] times. *)
Fixpoint accumulate (blocks : nat) (r a : list float)
  : list float * list float :=
  match blocks with
  | O => (r, a)
  | S b =>
      accumulate b
        (map (fun '(x, y) => x + y) (combine r (firstn 8 a))) (skipn 8 a)
  end.

(** [((r[0] + r[1]) + (r[2] + r[3])) + ((r[4] + r[5]) + (r[6] + r[7]))] *)
Definition tree (r : list float) : float :=
  let g j := nth j r 0 in
  ((g 0%nat + g 1%nat) + (g 2%nat + g 3%nat))
  + ((g 4%nat + g 5%nat) + (g 6%nat + g 7%nat)).

(** A block of 8 to 128 rows. *)
Definition block_sum (a : list float) : float :=
  let '(r, rest) :=
    accumulate (List.length a / 8 - 1) (firstn 8 a) (skipn 8 a) in
  add_rows (tree r) rest.

(** The recursion of [pairwise_sum] halves the column: the fuel counts
    the calls, and the length of the column is enough of it
    ([Float64Facts.pairwise_sum_fuel]). *)
Fixpoint pairwise_sum (fuel : nat) (a : list float) : float :=
  let n := List.length a in
  if (n <? 8)%nat then add_rows PrimFloat.neg_zero a
  else if (n <=? 128)%nat then block_sum a
  else
    match fuel with
    | O => block_sum a
    | S fuel' =>
        let n2 := (n / 2 - (n / 2) mod 8)%nat in
        pairwise_sum fuel' (firstn n2 a) + pairwise_sum fuel' (skipn n2 a)
    end.

(** [values.sum()]: the reduction starts from [0]. *)
Definition total (vs : list float) : float :=
  0 + pairwise_sum (List.length vs) vs.

(** [Series.mean()], which skips NaN (pandas' [nanmean]): each NaN is
    replaced by [0] where it stands, the column is summed, and the sum is
    divided by the number of values that are not NaN; the mean is NaN when
    there is none. *)
Definition fill (v : float) : float := if PrimFloat.is_nan v then 0 else v.

Definition mean (vs : list float) : float :=
  match List.length (filter not_nan vs) with
  | O => PrimFloat.nan
  | S _ as count => total (map fill vs) / of_count count
  end.

(** [Series.min()] and [Series.max()], which skip NaN: the least and the
    greatest of the values that are not NaN, and NaN when there is none.
    Of two values that compare equal, which [0] and [-0] do, the later
    one is kept, as numpy's loop for two values does. *)
Definition smin (vs : list float) : float :=
  match filter not_nan vs with
  | [] => PrimFloat.nan
  | w :: ws => fold_left (fun a b => if PrimFloat.ltb a b then a else b) ws w
  end.

Definition smax (vs : list float) : float :=
  match filter not_nan vs with
  | [] => PrimFloat.nan
  | w :: ws => fold_left (fun a b => if PrimFloat.ltb b a then a else b) ws w
  end.

Definition ops : SeriesOps float := {|
  series_ge := ge;
  series_le := le;
  series_mean := mean;
  series_min := smin;
  series_max := smax
|}.

End Float64.


(** ** Inputs that the examples run on *)

Module Examples.

Local Open Scope string_scope.

(** The end-to-end example of the specification. *)
Definition example_log : string :=
"Step Temp Press
0 300.0 1.0
100 301.5 1.1
200 299.8 0.9

Step Temp Press
0 310.0 2.0
100 311.0 2.1
".

(** [--avg-cols Temp --x-min 0 --x-max 100] on run 1, with [x] the default. *)
Definition example_args : Args.t float :=
  Args.mk "log.lammps" 1 "Step" None (Some 0%float) (Some 100%float)
    (Some ["Temp"]) false.

(** A block of two rows and the blank line after it. *)
Definition small_log : string :=
"Step Temp
0 300.5
100 301.5

".

(** A data line whose second token is no number. *)
Definition bad_token_log : string :=
"Step Temp
0 abc

".

(** A header with no data line after it, and a block after that. *)
Definition bare_header_log : string :=
"Step Temp Press
Loop time of 1.5
Step Temp
0 300.5
".

(** A header line whose first token is not [Step]. *)
Definition stepper_log : string :=
"Stepper Temp
1 2
".

(** A run whose [x] column holds a NaN. *)
Definition nan_log : string :=
"Step Temp
nan 1.0
5 2.0
".



(** The arguments of a call: the run, [x], [y], the bounds, [avg_cols]. *)
Definition call (y : option (list string)) (x_min x_max : option float)
    (avg_cols : option (list string)) : Args.t float :=
  Args.mk "log.lammps" 1 "Step" y x_min x_max avg_cols false.

End Examples.

(** ** Notions for the further properties *)

(** A token: a string that is not empty and holds no whitespace. *)
Definition is_token (w : string) : bool :=
  negb (Str.is_empty w)
  && forallb (fun c => negb (Str.isspace c)) (list_ascii_of_string w).

(** The same arguments with another value of [--list]. *)
Definition set_list {F : Type} (a : Args.t F) (b : bool) : Args.t F :=
  Args.mk (Args.logfile a) (Args.run a) (Args.x a) (Args.y a)
    (Args.x_min a) (Args.x_max a) (Args.avg_cols a) b.

(** A line that no block reads as a row: it is blank, or its first token
    does not convert. *)
Definition never_data {F : Type} (float : string -> option F)
    (raw : string) : Prop :=
  Str.is_empty (Str.strip raw) = true \/
  exists p ps, Str.split (Str.strip raw) = p :: ps /\ float p = None.

(** Two texts with back-to-back blocks and a block that ends the file. *)
Module MoreExamples.

Local Open Scope string_scope.

Definition adjacent_log : string :=
"Step Temp
0 300.5
Step Press
5 1.5
10 2.5".

Definition indented_log : string :=
"   Step Temp
	0 300.5   
  100 301.5 
".

Definition text_only_log : string :=
"LAMMPS (2 Aug 2023)
Step counts follow
Loop time of 1.5

".

End MoreExamples.

(** ** Facts about strings *)

Module StrFacts.
Import Str.

Lemma rstrip_head (c : ascii) (r : string) :
  isspace c = false -> exists r', rstrip (String c r) = String c r'.
Proof.
  intros Hc. simpl. destruct (rstrip r) as [|c' r'].
  - rewrite Hc. now exists EmptyString.
  - now exists (String c' r').
Qed.

Lemma lstrip_head (s : string) :
  lstrip s = EmptyString \/
  exists c r, lstrip s = String c r /\ isspace c = false.
Proof.
  induction s as [|c s IH]; simpl.
  - now left.
  - destruct (isspace c) eqn:Hc; [exact IH|].
    right. now exists c, s.
Qed.

(** A stripped line is empty or starts with a character that is no space. *)
Lemma strip_head (s : string) :
  strip s = EmptyString \/
  exists c r, strip s = String c r /\ isspace c = false.
Proof.
  unfold strip. destruct (lstrip_head s) as [E | (c & r & E & Hc)]; rewrite E.
  - now left.
  - right. destruct (rstrip_head c r Hc) as [r' E']. now exists c, r'.
Qed.

Lemma split_unfold (c c' : ascii) (r : string) :
  split (String c (String c' r)) =
  if isspace c then split (String c' r)
  else if isspace c' then String c EmptyString :: split (String c' r)
       else match split (String c' r) with
            | w :: ws => String c w :: ws
            | [] => [String c EmptyString]
            end.
Proof. reflexivity. Qed.

Lemma split_cons (c c' : ascii) (r w : string) (ws : list string) :
  isspace c = false -> isspace c' = false ->
  split (String c' r) = w :: ws ->
  split (String c (String c' r)) = String c w :: ws.
Proof.
  intros Hc Hc' E. rewrite split_unfold, Hc, Hc', E. reflexivity.
Qed.

(** The first token of a string that starts with a character that is no
    space starts with that character. *)
Lemma split_head (c : ascii) (r : string) :
  isspace c = false -> exists w ws, split (String c r) = String c w :: ws.
Proof.
  revert c. induction r as [|c' r IH]; intros c Hc.
  - simpl. rewrite Hc. now exists EmptyString, [].
  - rewrite split_unfold, Hc. destruct (isspace c') eqn:Hc'.
    + now exists EmptyString, (split (String c' r)).
    + destruct (IH c' Hc') as (w & ws & E). rewrite E.
      now exists (String c' w), ws.
Qed.

(** [parts[0]] exists on a line that is not blank. *)
Lemma split_strip_nonempty (s : string) :
  is_empty (strip s) = false ->
  exists p ps, split (strip s) = p :: ps.
Proof.
  intros H. destruct (strip_head s) as [E | (c & r & E & Hc)].
  - rewrite E in H. discriminate.
  - rewrite E. destruct (split_head c r Hc) as (w & ws & Ew).
    now exists (String c w), ws.
Qed.

Lemma startswith_cons (c : ascii) (p s : string) :
  startswith s (String c p) = true ->
  exists s', s = String c s' /\ startswith s' p = true.
Proof.
  destruct s as [|c' s']; simpl; [discriminate|].
  intros H. apply andb_prop in H as [Hc H].
  apply Ascii.eqb_eq in Hc as <-. now exists s'.
Qed.

(** The first token of a line that starts with [Step] starts with it too. *)
Lemma split_startswith_Step (s : string) :
  startswith s "Step" = true ->
  exists w ws, split s = w :: ws /\ startswith w "Step" = true.
Proof.
  intros H.
  apply startswith_cons in H as (s1 & -> & H).
  apply startswith_cons in H as (s2 & -> & H).
  apply startswith_cons in H as (s3 & -> & H).
  apply startswith_cons in H as (s4 & -> & _).
  destruct (split_head "p"%char s4 eq_refl) as (w & ws & E).
  exists (String "S" (String "t" (String "e" (String "p" w)))), ws.
  split; [|reflexivity].
  repeat (apply split_cons; [reflexivity | reflexivity |]).
  exact E.
Qed.

End StrFacts.

(** ** Facts about binary64 numbers *)

Module Float64Facts.
Import Float64.

Local Open Scope Z_scope.







(** A number that is not NaN has a specification that is not NaN. *)
Lemma not_nan_spec (v : float) :
  not_nan v = true -> Prim2SF v <> S754_nan.
Proof.
  unfold not_nan, PrimFloat.is_nan. rewrite eqb_spec. intros H E.
  rewrite E in H. discriminate.
Qed.

(** Every number that is not NaN is between the two infinities. *)
Lemma neg_infinity_le (v : float) :
  not_nan v = true -> PrimFloat.leb neg_infinity v = true.
Proof.
  intros H. apply not_nan_spec in H. rewrite leb_spec.
  change (Prim2SF neg_infinity) with (S754_infinity true).
  destruct (Prim2SF v) as [s|s| |s m e]; try reflexivity;
    [now destruct s | contradiction].
Qed.

Lemma le_infinity (v : float) :
  not_nan v = true -> PrimFloat.leb v infinity = true.
Proof.
  intros H. apply not_nan_spec in H. rewrite leb_spec.
  change (Prim2SF infinity) with (S754_infinity false).
  destruct (Prim2SF v) as [s|s| |s m e]; try reflexivity;
    [now destruct s | contradiction].
Qed.





Lemma mean_single_neg_zero : mean [neg_zero] = 0%float.
Proof. reflexivity. Qed.

(** The sum of a column does not depend on the fuel, once there is as
    much of it as the column has rows. *)
Lemma pairwise_sum_fuel (f1 f2 : nat) (a : list float) :
  (List.length a <= f1)%nat -> (List.length a <= f2)%nat ->
  pairwise_sum f1 a = pairwise_sum f2 a.
Proof.
  revert f2 a. induction f1 as [|f1 IH]; intros f2 a H1 H2.
  - destruct a; [|simpl in H1; lia]. now destruct f2.
  - destruct f2 as [|f2].
    + destruct a; [|simpl in H2; lia]. reflexivity.
    + cbn [pairwise_sum].
      destruct (List.length a <? 8)%nat eqn:E8; [reflexivity|].
      destruct (List.length a <=? 128)%nat eqn:E128; [reflexivity|].
      apply Nat.leb_gt in E128.
      assert (Hn2 : (0 < List.length a / 2 - (List.length a / 2) mod 8
                     < List.length a)%nat).
      { pose proof (Nat.mod_upper_bound (List.length a / 2) 8
                      ltac:(discriminate)).
        pose proof (Nat.Div0.div_lt_upper_bound (List.length a) 2
                      (List.length a)).
        assert (64 <= List.length a / 2)%nat
          by (apply Nat.div_le_lower_bound; lia).
        assert (List.length a / 2 < List.length a)%nat
          by (apply Nat.div_lt; lia).
        lia. }
      f_equal; apply IH; rewrite ?length_firstn, ?length_skipn; lia.
Qed.

(** The order of the additions shows in the result: for a column of nine
    rows the eight running sums give another mean than adding the rows
    one after the other. *)
Lemma mean_adds_in_pairs :
  mean [1e16; 1; 1; 1; 1; 1; 1; 1; 1]%float = 1111111111111112%float
  /\ (fold_left PrimFloat.add [1; 1; 1; 1; 1; 1; 1; 1]%float 1e16 / 9)%float
     = 1111111111111111.125%float.
Proof. split; vm_compute; reflexivity. Qed.

(** [float] rejects every string that starts with [Step]. *)
Lemma py_float_Step (t : string) :
  Str.startswith t "Step" = true -> py_float t = None.
Proof.
  intros H. apply StrFacts.startswith_cons in H as (s1 & -> & _).
  unfold py_float, Str.strip. cbn [Str.lstrip].
  change (Str.isspace "S") with false. cbv iota.
  destruct (StrFacts.rstrip_head "S" s1 eq_refl) as [r ->].
  reflexivity.
Qed.

End Float64Facts.

(** ** Facts about the segmenter *)

Section SegmenterFacts.

Context {F : Type}.
Variable float : string -> option F.

Lemma segment_from_skipn (k : nat) (ls : list string) :
  segment_from float k ls = segment float (skipn k ls).
Proof.
  revert k. induction ls as [|raw ls IH]; intros [|k]; try reflexivity.
  simpl. apply IH.
Qed.

(** [segment] on a line and the lines after it. *)
Lemma segment_cons (raw : string) (ls : list string) :
  segment float (raw :: ls) =
  if is_header raw then
    '(rs, k) <- collect float (header_of raw) ls ;;
    runs <- segment float (skipn k ls) ;;
    Ret (emit (header_of raw) rs ++ runs)
  else segment float ls.
Proof.
  unfold segment at 1. simpl. destruct (is_header raw); [|reflexivity].
  destruct (collect float (header_of raw) ls) as [[rs k]| |]; simpl;
    try reflexivity.
  now rewrite segment_from_skipn.
Qed.

Lemma plus_0 (n : nat) : n + 0 = n.
Proof. lia. Qed.

Lemma plus_S (n m : nat) : S n + m = n + S m.
Proof. lia. Qed.

Lemma skipn_cons_inv {A : Type} (l : list A) (i : nat) (x : A) (suf : list A) :
  skipn i l = x :: suf ->
  nth_error l i = Some x /\ skipn (S i) l = suf /\ i < length l.
Proof.
  revert i. induction l as [|y l IH]; intros [|i] H; simpl in *;
    try discriminate.
  - injection H as -> ->. repeat split. lia.
  - destruct (IH i H) as (H1 & H2 & H3). repeat split; auto. lia.
Qed.

Lemma skipn_nil_inv {A : Type} (l : list A) (i : nat) :
  skipn i l = [] -> length l <= i.
Proof.
  intros H. apply (f_equal (@length A)) in H.
  rewrite length_skipn in H. simpl in H. lia.
Qed.

Lemma collect_bound (h : list string) (ls : list string)
    (rs : list (list F)) (k : nat) :
  collect float h ls = Ret (rs, k) -> k <= length ls /\ length rs = k.
Proof.
  revert rs k. induction ls as [|raw ls IH]; intros rs k H; simpl in H.
  - injection H as <- <-. split; reflexivity.
  - destruct (data_line float h raw).
    + destruct (row_of float raw) as [row| |]; simpl in H; try discriminate.
      destruct (collect float h ls) as [[rs' k']| |]; simpl in H;
        try discriminate.
      injection H as <- <-. destruct (IH rs' k' eq_refl). simpl. lia.
    + injection H as <- <-. simpl. lia.
Qed.

(** One run of the inner loop's body on the line at the cursor. *)
Lemma inner_body_line (lines h : list string) (i : nat)
    (data : list (list F)) (raw : string) :
  nth_error lines i = Some raw ->
  inner_body float lines h (i, data) =
  if data_line float h raw then
    row <- row_of float raw ;; Ret (Next (S i, data ++ [row]))
  else Ret (Break (i, data)).
Proof.
  intros Hn. unfold inner_body, getitem at 1. rewrite Hn. cbn [bind].
  unfold data_line, is_blank, row_of.
  destruct (Str.is_empty (Str.strip raw)) eqn:Hb; cbn [negb andb];
    [reflexivity|].
  destruct (StrFacts.split_strip_nonempty raw Hb) as (p0 & ps & Hp).
  rewrite Hp. unfold getitem. cbn [nth_error bind]. unfold numeric.
  destruct (float p0) as [v|]; cbn [andb]; [|reflexivity].
  destruct (length (p0 :: ps) =? length h); reflexivity.
Qed.

(** The inner loop from cursor [i] reads the data lines that [collect]
    reads at the head of the lines from [i] on. *)
Lemma inner_loop_collect (lines h suf : list string) :
  forall (i : nat) (data : list (list F)) (fuel : nat),
  skipn i lines = suf -> i <= length lines -> length suf < fuel ->
  while fuel (fun st => fst st <? length lines)
    (inner_body float lines h) (i, data) =
  '(rs, k) <- collect float h suf ;; Ret (i + k, data ++ rs).
Proof.
  induction suf as [|raw suf IH]; intros i data fuel Hs Hi Hf;
    (destruct fuel as [|fuel]; [simpl in Hf; lia|]).
  - apply skipn_nil_inv in Hs. simpl.
    replace (i <? length lines) with false
      by (symmetry; apply Nat.ltb_ge; lia).
    now rewrite plus_0, app_nil_r.
  - apply skipn_cons_inv in Hs as (Hn & Hs & Hlt). simpl in Hf.
    cbn [while fst collect]. replace (i <? length lines) with true
      by (symmetry; apply Nat.ltb_lt; lia).
    rewrite (inner_body_line lines h i data raw Hn).
    destruct (data_line float h raw); cbn [bind];
      [|now rewrite plus_0, app_nil_r].
    destruct (row_of float raw) as [row| |]; cbn [bind]; try reflexivity.
    rewrite (IH (S i) (data ++ [row]) fuel Hs) by lia.
    destruct (collect float h suf) as [[rs k]| |]; cbn [bind];
      try reflexivity.
    now rewrite <- app_assoc, plus_S.
Qed.

(** One run of the outer loop's body on the line at the cursor. *)
Lemma outer_body_line (lines : list string) (fuel i : nat)
    (runs : list (Run F)) (raw : string) (suf : list string) :
  skipn i lines = raw :: suf -> length lines < fuel ->
  outer_body float lines fuel (i, runs) =
  if is_header raw then
    '(rs, k) <- collect float (header_of raw) suf ;;
    Ret (Next (S i + k, runs ++ emit (header_of raw) rs))
  else Ret (Next (S i, runs)).
Proof.
  intros Hs Hf. apply skipn_cons_inv in Hs as (Hn & Hs & Hlt).
  unfold outer_body, getitem. rewrite Hn. cbn [bind].
  fold (is_header raw). destruct (is_header raw); [|reflexivity].
  fold (header_of raw).
  assert (Hlen : length suf < fuel).
  { rewrite <- Hs, length_skipn. lia. }
  rewrite (inner_loop_collect lines (header_of raw) suf (S i) [] fuel Hs)
    by lia.
  destruct (collect float (header_of raw) suf) as [[rs k]| |]; cbn [bind];
    try reflexivity.
  destruct rs; cbn [emit app]; [now rewrite app_nil_r | reflexivity].
Qed.

(** The outer loop from cursor [i] gives the runs of the lines from [i] on
    and stops at the end of the input. *)
Lemma outer_loop_segment (lines : list string) (fuel_in : nat) :
  length lines < fuel_in ->
  forall (fuel i : nat) (runs : list (Run F)),
  i <= length lines -> length lines - i < fuel ->
  while fuel (fun st => fst st <? length lines)
    (outer_body float lines fuel_in) (i, runs) =
  rs <- segment float (skipn i lines) ;; Ret (length lines, runs ++ rs).
Proof.
  intros Hin. induction fuel as [|fuel IH]; intros i runs Hi Hf; [lia|].
  cbn [while fst]. destruct (skipn i lines) as [|raw suf] eqn:Hs.
  - apply skipn_nil_inv in Hs.
    replace (i <? length lines) with false
      by (symmetry; apply Nat.ltb_ge; lia).
    cbn. rewrite app_nil_r. f_equal. f_equal. lia.
  - destruct (skipn_cons_inv lines i raw suf Hs) as (Hn & Hs' & Hlt).
    replace (i <? length lines) with true
      by (symmetry; apply Nat.ltb_lt; lia).
    rewrite (outer_body_line lines fuel_in i runs raw suf Hs Hin), segment_cons.
    destruct (is_header raw).
    + destruct (collect float (header_of raw) suf) as [[rs k]| |] eqn:Hc;
        cbn [bind]; try reflexivity.
      destruct (collect_bound _ _ _ _ Hc) as [Hk _].
      assert (Hsuf : length suf = length lines - S i).
      { rewrite <- Hs'. apply length_skipn. }
      rewrite IH by lia.
      replace (skipn (S i + k) lines) with (skipn k suf)
        by (rewrite <- Hs', skipn_skipn; f_equal; lia).
      destruct (segment float (skipn k suf)); cbn [bind]; try reflexivity.
      now rewrite app_assoc.
    + rewrite IH by lia. now rewrite Hs'.
Qed.

(** The two loops give what [segment] gives: the fuel is enough. *)
Lemma parse_lines_segment (lines : list string) :
  parse_lines float lines = segment float lines.
Proof.
  unfold parse_lines, scan.
  rewrite (outer_loop_segment lines (S (length lines))) by lia.
  cbn [skipn]. destruct (segment float lines); reflexivity.
Qed.

(** *** Conversions *)

Lemma floats_length (parts : list string) (row : list F) :
  floats float parts = Ret row -> length row = length parts.
Proof.
  revert row. induction parts as [|p ps IH]; intros row H; simpl in H.
  - now injection H as <-.
  - destruct (float p); [|discriminate].
    destruct (floats float ps) as [vs| |]; simpl in H; try discriminate.
    injection H as <-. simpl. now rewrite (IH vs).
Qed.

(** A conversion gives a row or raises [ValueError], nothing else. *)
Lemma floats_cases (parts : list string) :
  (exists row, floats float parts = Ret row) \/
  floats float parts = Raise ValueError.
Proof.
  induction parts as [|p ps IH]; simpl.
  - left. now exists [].
  - destruct (float p) as [v|]; [|now right].
    destruct IH as [[vs ->] | ->]; simpl; [left; now exists (v :: vs) | now right].
Qed.

(** [floats] is the token-by-token conversion. *)
Lemma floats_Ret_iff (parts : list string) (row : list F) :
  floats float parts = Ret row <->
  Forall2 (fun p v => float p = Some v) parts row.
Proof.
  revert row. induction parts as [|p ps IH]; intros row; simpl.
  - split.
    + intros H. injection H as <-. constructor.
    + intros H. inversion H. reflexivity.
  - split.
    + destruct (float p) as [v|] eqn:Hp; [|discriminate].
      destruct (floats float ps) as [vs| |]; simpl; try discriminate.
      intros H. injection H as <-. constructor; [exact Hp|]. now apply IH.
    + intros H. inversion H as [|p' v ps' vs Hp Hvs]; subst.
      rewrite Hp. apply IH in Hvs. now rewrite Hvs.
Qed.

(** *** Blocks of data lines *)

Lemma collect_cases (h ls : list string) :
  (exists rs k, collect float h ls = Ret (rs, k)) \/
  collect float h ls = Raise ValueError.
Proof.
  induction ls as [|raw ls IH]; simpl.
  - left. now exists [], 0.
  - destruct (data_line float h raw); [|left; now exists [], 0].
    unfold row_of. destruct (floats_cases (Str.split (Str.strip raw)))
      as [[row ->] | ->]; simpl; [|now right].
    destruct IH as [(rs & k & ->) | ->]; simpl; [|now right].
    left. now exists (row :: rs), (S k).
Qed.

(** The rows of a block have the header's length. *)
Lemma collect_rows_length (h ls : list string) (rs : list (list F)) (k : nat) :
  collect float h ls = Ret (rs, k) ->
  Forall (fun row => length row = length h) rs.
Proof.
  revert rs k. induction ls as [|raw ls IH]; intros rs k H; simpl in H.
  - injection H as <- <-. constructor.
  - destruct (data_line float h raw) eqn:Hd.
    + destruct (row_of float raw) as [row| |] eqn:Hr; simpl in H;
        try discriminate.
      destruct (collect float h ls) as [[rs' k']| |]; simpl in H;
        try discriminate.
      injection H as <- <-. constructor; [|now apply (IH rs' k')].
      unfold row_of in Hr. apply floats_length in Hr. rewrite Hr.
      unfold data_line in Hd. apply andb_prop in Hd as [_ Hd].
      now apply Nat.eqb_eq in Hd.
    + injection H as <- <-. constructor.
Qed.

(** A line that is no data line ends the block: what follows it does not
    matter. *)
Lemma collect_app_stop (h xs : list string) (stop : string) (rest : list string) :
  data_line float h stop = false ->
  collect float h (xs ++ stop :: rest) = collect float h xs.
Proof.
  intros Hstop. induction xs as [|raw xs IH]; simpl.
  - now rewrite Hstop.
  - now rewrite IH.
Qed.

(** [m] data lines whose tokens all convert give their [m] rows. *)
Lemma collect_data (h data : list string) (rws : list (list F)) :
  Forall (fun l => data_line float h l = true) data ->
  Forall2 (fun l row => row_of float l = Ret row) data rws ->
  collect float h data = Ret (rws, length data).
Proof.
  intros Hd Hr. induction Hr as [|l row data rws Hl Hr IH]; [reflexivity|].
  inversion Hd as [|? ? Hdl Hd']; subst. simpl.
  now rewrite Hdl, Hl, (IH Hd').
Qed.

(** Data lines up to one that has a token that does not convert. *)
Lemma collect_bad (h data : list string) (bad : string) (rest : list string) :
  Forall (fun l => data_line float h l = true) data ->
  data_line float h bad = true ->
  row_of float bad = Raise ValueError ->
  collect float h (data ++ bad :: rest) = Raise ValueError.
Proof.
  intros Hd Hb Hr. induction Hd as [|l data Hl Hd IH]; simpl.
  - now rewrite Hb, Hr.
  - rewrite Hl, IH. unfold row_of.
    destruct (floats_cases (Str.split (Str.strip l))) as [[row ->] | ->];
      reflexivity.
Qed.

(** *** Induction along the blocks *)

Lemma segment_blocks_ind (P : list string -> outcome (list (Run F)) -> Prop) :
  P [] (Ret []) ->
  (forall raw ls, is_header raw = false ->
     P ls (segment float ls) -> P (raw :: ls) (segment float ls)) ->
  (forall raw ls e, is_header raw = true ->
     collect float (header_of raw) ls = Raise e -> P (raw :: ls) (Raise e)) ->
  (forall raw ls, is_header raw = true ->
     collect float (header_of raw) ls = OutOfFuel -> P (raw :: ls) OutOfFuel) ->
  (forall raw ls rs k, is_header raw = true ->
     collect float (header_of raw) ls = Ret (rs, k) ->
     P (skipn k ls) (segment float (skipn k ls)) ->
     P (raw :: ls)
       (runs <- segment float (skipn k ls) ;;
        Ret (emit (header_of raw) rs ++ runs))) ->
  forall ls, P ls (segment float ls).
Proof.
  intros Hnil Hskip Hraise Hfuel Hblock ls.
  remember (length ls) as n eqn:Hn.
  revert ls Hn. induction n as [n IH] using lt_wf_ind. intros ls Hn.
  destruct ls as [|raw ls]; [exact Hnil|].
  rewrite segment_cons. destruct (is_header raw) eqn:Hh.
  - destruct (collect float (header_of raw) ls) as [[rs k]| |] eqn:Hc;
      cbn [bind].
    + apply Hblock; auto.
      apply (IH (length (skipn k ls))); [|reflexivity].
      subst n. rewrite length_skipn. simpl. lia.
    + now apply Hraise.
    + now apply Hfuel.
  - apply Hskip; auto. apply (IH (length ls)); [|reflexivity].
    subst n. simpl. lia.
Qed.

(** [segment] gives runs or raises [ValueError], nothing else. *)
Lemma segment_cases (ls : list string) :
  (exists runs, segment float ls = Ret runs) \/
  segment float ls = Raise ValueError.
Proof.
  apply segment_blocks_ind with
    (P := fun _ o => (exists runs, o = Ret runs) \/ o = Raise ValueError);
    clear ls.
  - left. now exists [].
  - auto.
  - intros raw ls e _ Hc. right.
    destruct (collect_cases (header_of raw) ls) as [(rs & k & H) | H];
      congruence.
  - intros raw ls _ Hc.
    destruct (collect_cases (header_of raw) ls) as [(rs & k & H) | H];
      congruence.
  - intros raw ls rs k _ _ [(runs & ->) | ->]; cbn [bind]; [left|now right].
    now eexists.
Qed.

Lemma segment_well_formed (ls : list string) (runs : list (Run F)) :
  segment float ls = Ret runs -> Forall well_formed runs.
Proof.
  revert runs. apply segment_blocks_ind with
    (P := fun _ o => forall runs : list (Run F),
            o = Ret runs -> Forall well_formed runs);
    clear ls.
  - intros runs H. injection H as <-. constructor.
  - auto.
  - discriminate.
  - discriminate.
  - intros raw ls rs k _ Hc IH runs H.
    destruct (segment float (skipn k ls)) as [runs'| |]; cbn [bind] in H;
      try discriminate.
    injection H as <-. apply Forall_app. split; [|now apply IH].
    destruct rs as [|row rs]; cbn [emit]; constructor; [|constructor].
    split; cbn [rows columns]; [discriminate|].
    exact (collect_rows_length _ _ _ _ Hc).
Qed.

(** A file with no header line has no run. *)
Lemma segment_no_header (ls : list string) :
  Forall (fun raw => is_header raw = false) ls -> segment float ls = Ret [].
Proof.
  induction 1 as [|raw ls Hh _ IH]; [reflexivity|].
  now rewrite segment_cons, Hh.
Qed.

Lemma blank_not_header (raw : string) :
  is_blank raw = true -> is_header raw = false.
Proof.
  unfold is_blank, is_header. now destruct (Str.strip raw).
Qed.

Lemma blank_not_data (h : list string) (raw : string) :
  is_blank raw = true -> data_line float h raw = false.
Proof. unfold data_line. now intros ->. Qed.

(** A header with no data line right after it gives no run. *)
Lemma segment_header_no_data (hl : string) (rest : list string) :
  is_header hl = true ->
  match rest with
  | [] => True
  | l :: _ => data_line float (header_of hl) l = false
  end ->
  segment float (hl :: rest) = segment float rest.
Proof.
  intros Hh Hr. rewrite segment_cons, Hh.
  destruct rest as [|l rest]; [reflexivity|].
  cbn [collect]. rewrite Hr. cbn [bind skipn emit app].
  destruct (segment float (l :: rest)); reflexivity.
Qed.

(** A header, [m >= 1] data lines whose tokens convert, and a blank line. *)
Lemma segment_block (hl : string) (data : list string) (blank : string)
    (post : list string) (rws : list (list F)) :
  is_header hl = true ->
  data <> [] ->
  Forall (fun l => data_line float (header_of hl) l = true) data ->
  Forall2 (fun l row => row_of float l = Ret row) data rws ->
  is_blank blank = true ->
  segment float (hl :: data ++ blank :: post) =
  runs <- segment float post ;; Ret (mkRun (header_of hl) rws :: runs).
Proof.
  intros Hh Hne Hd Hr Hb. rewrite segment_cons, Hh.
  rewrite (collect_app_stop _ _ _ _ (blank_not_data (header_of hl) _ Hb)).
  rewrite (collect_data _ _ _ Hd Hr). cbn [bind].
  replace (skipn (length data) (data ++ blank :: post)) with (blank :: post).
  2:{ rewrite skipn_app, skipn_all, Nat.sub_diag. reflexivity. }
  rewrite segment_cons, (blank_not_header _ Hb).
  destruct rws as [|row rws]; [|reflexivity].
  inversion Hr; subst. contradiction.
Qed.

(** *** Termination and the use of the lines *)

(** With one unit of fuel more than there are lines, or more, the two
    loops end and give the runs of the lines. *)
Lemma scan_enough_fuel (lines : list string) (fuel : nat) :
  length lines < fuel -> scan float lines fuel = segment float lines.
Proof.
  intros Hf. unfold scan.
  rewrite (outer_loop_segment lines fuel Hf) by lia.
  cbn [skipn]. destruct (segment float lines); reflexivity.
Qed.

(** The outer loop stops with its cursor at the end of the input. *)
Lemma outer_loop_end (lines : list string) (fuel : nat) (runs : list (Run F)) :
  length lines < fuel -> segment float lines = Ret runs ->
  while fuel (fun st => fst st <? length lines)
    (outer_body float lines fuel) (0, []) = Ret (length lines, runs).
Proof.
  intros Hf Hs. rewrite (outer_loop_segment lines fuel Hf) by lia.
  cbn [skipn]. now rewrite Hs.
Qed.

(** One run of the outer loop's body moves the cursor forward, and not
    past the end. *)
Lemma outer_body_advances (lines : list string) (fuel i : nat)
    (runs : list (Run F)) :
  i < length lines -> length lines < fuel ->
  (exists i' runs', outer_body float lines fuel (i, runs) = Ret (Next (i', runs'))
                    /\ i < i' <= length lines) \/
  outer_body float lines fuel (i, runs) = Raise ValueError.
Proof.
  intros Hi Hf. destruct (skipn i lines) as [|raw suf] eqn:Hs.
  { apply skipn_nil_inv in Hs. lia. }
  rewrite (outer_body_line lines fuel i runs raw suf Hs Hf).
  destruct (skipn_cons_inv lines i raw suf Hs) as (_ & Hs' & _).
  destruct (is_header raw).
  - destruct (collect_cases (header_of raw) suf) as [(rs & k & Hc) | Hc];
      rewrite Hc; cbn [bind]; [left | now right].
    destruct (collect_bound _ _ _ _ Hc) as [Hk _].
    assert (length suf = length lines - S i)
      by (rewrite <- Hs'; apply length_skipn).
    eexists _, _. split; [reflexivity | lia].
  - left. eexists _, _. split; [reflexivity | lia].
Qed.

(** One run of the inner loop's body reads one more row and moves the
    cursor by one, or ends the loop with the cursor where it was. *)
Lemma inner_body_steps (lines h : list string) (i : nat)
    (data : list (list F)) :
  i < length lines ->
  (exists row, inner_body float lines h (i, data)
               = Ret (Next (S i, data ++ [row]))) \/
  inner_body float lines h (i, data) = Ret (Break (i, data)) \/
  inner_body float lines h (i, data) = Raise ValueError.
Proof.
  intros Hi. destruct (nth_error lines i) as [raw|] eqn:Hn.
  2:{ apply nth_error_None in Hn. lia. }
  rewrite (inner_body_line lines h i data raw Hn).
  destruct (data_line float h raw); [|now right; left].
  unfold row_of.
  destruct (floats_cases (Str.split (Str.strip raw))) as [[row ->] | ->];
    cbn [bind]; [left; now exists row | now right; right].
Qed.

(** The rows of a block are the conversions of the lines it read. *)
Lemma collect_firstn (h ls : list string) (rs : list (list F)) (k : nat) :
  collect float h ls = Ret (rs, k) ->
  Forall2 (fun l row => row_of float l = Ret row) (firstn k ls) rs.
Proof.
  revert rs k. induction ls as [|raw ls IH]; intros rs k H; simpl in H.
  - injection H as <- <-. constructor.
  - destruct (data_line float h raw).
    + destruct (row_of float raw) as [row| |] eqn:Hr; cbn [bind] in H;
        try discriminate.
      destruct (collect float h ls) as [[rs' k']| |]; cbn [bind] in H;
        try discriminate.
      injection H as <- <-. cbn [firstn]. constructor; [exact Hr|].
      now apply IH.
    + injection H as <- <-. constructor.
Qed.

Lemma subseq_firstn_app (k : nat) (ls used : list string) :
  subseq used (skipn k ls) -> subseq (firstn k ls ++ used) ls.
Proof.
  revert ls. induction k as [|k IH]; intros ls H; [exact H|].
  destruct ls as [|l ls]; [exact H|].
  cbn [firstn skipn app] in *. constructor. now apply IH.
Qed.

Lemma rows_emit_app (h : list string) (rs : list (list F))
    (runs : list (Run F)) :
  concat (map rows (emit h rs ++ runs)) = rs ++ concat (map rows runs).
Proof.
  destruct rs; [reflexivity|]. cbn [emit app map concat rows]. reflexivity.
Qed.

(** The rows of all the runs, in order, are the conversions of lines taken
    out of the input in its order: no line gives a row twice. *)
Lemma segment_rows_subseq (ls : list string) (runs : list (Run F)) :
  segment float ls = Ret runs ->
  exists used,
    subseq used ls /\
    Forall2 (fun l row => row_of float l = Ret row) used
      (concat (map rows runs)).
Proof.
  revert runs. apply segment_blocks_ind with
    (P := fun ls o => forall runs : list (Run F), o = Ret runs ->
            exists used, subseq used ls /\
              Forall2 (fun l row => row_of float l = Ret row) used
                (concat (map rows runs)));
    clear ls.
  - intros runs [= <-]. exists []. split; constructor.
  - intros raw ls _ IH runs H. destruct (IH runs H) as (used & Hs & Hr).
    exists used. split; [now constructor | exact Hr].
  - discriminate.
  - discriminate.
  - intros raw ls rs k _ Hc IH runs H.
    destruct (segment float (skipn k ls)) as [runs'| |]; cbn [bind] in H;
      try discriminate.
    injection H as <-. destruct (IH runs' eq_refl) as (used & Hs & Hr).
    exists (firstn k ls ++ used). split.
    + constructor. now apply subseq_firstn_app.
    + rewrite rows_emit_app. apply Forall2_app; [|exact Hr].
      now apply collect_firstn with (h := header_of raw).
Qed.

Section RejectsStep.

Hypothesis float_Step : rejects_Step float.

Lemma header_not_data (h : list string) (raw : string) :
  is_header raw = true -> data_line float h raw = false.
Proof.
  unfold is_header, data_line. intros Hh.
  destruct (StrFacts.split_startswith_Step _ Hh) as (w & ws & -> & Hw).
  unfold numeric. rewrite (float_Step _ Hw).
  now rewrite andb_false_r.
Qed.

(** A header line is never read as a row of the block before it: the runs
    of a file are those before the header followed by those from it on. *)
Lemma segment_app_header (pre : list string) (hl : string) (rest : list string) :
  is_header hl = true ->
  segment float (pre ++ hl :: rest) =
  r1 <- segment float pre ;;
  r2 <- segment float (hl :: rest) ;; Ret (r1 ++ r2).
Proof.
  intros Hh. remember (length pre) as n eqn:Hn.
  revert pre Hn. induction n as [n IH] using lt_wf_ind. intros pre Hn.
  destruct pre as [|raw pre].
  - cbn [app]. change (segment float []) with (@Ret (list (Run F)) []).
    cbn [bind app]. destruct (segment float (hl :: rest)); reflexivity.
  - rewrite <- app_comm_cons, !(segment_cons raw).
    destruct (is_header raw).
    + rewrite (collect_app_stop _ _ _ _ (header_not_data (header_of raw) _ Hh)).
      destruct (collect float (header_of raw) pre) as [[rs k]| |] eqn:Hc;
        cbn [bind]; try reflexivity.
      destruct (collect_bound _ _ _ _ Hc) as [Hk _].
      rewrite skipn_app. replace (k - length pre) with 0 by lia.
      cbn [skipn]. rewrite (IH (length (skipn k pre))); [| |reflexivity].
      2:{ subst n. rewrite length_skipn. simpl. lia. }
      destruct (segment float (skipn k pre)) as [r1| |]; cbn [bind];
        try reflexivity.
      destruct (segment float (hl :: rest)) as [r2| |]; cbn [bind];
        try reflexivity.
      now rewrite app_assoc.
    + apply (IH (length pre)); [|reflexivity]. subst n. simpl. lia.
Qed.

End RejectsStep.

End SegmenterFacts.

(** ** Facts about the query engine *)

Section QueryFacts.

Context {F : Type}.
Variable ops : SeriesOps F.
Variable d : F.

Lemma contains_index (cols : list string) (name : string) :
  contains cols name = true ->
  exists j, index_of name cols = Some j /\ j < length cols.
Proof.
  induction cols as [|c cs IH]; simpl; [discriminate|].
  destruct (String.eqb name c).
  - intros _. exists 0. split; [reflexivity | lia].
  - simpl. intros H. destruct (IH H) as (j & -> & Hj).
    exists (S j). split; [reflexivity | lia].
Qed.

Lemma contains_In (cols : list string) (name : string) :
  contains cols name = true <-> In name cols.
Proof.
  unfold contains. rewrite existsb_exists. split.
  - intros (c & Hc & E). apply String.eqb_eq in E. now subst.
  - intros H. exists name. split; [exact H | apply String.eqb_refl].
Qed.

Lemma cells_nth (j n : nat) (rws : list (list F)) :
  Forall (fun row => length row = n) rws -> j < n ->
  cells j rws = Ret (map (fun r => nth j r d) rws).
Proof.
  intros H Hj. induction H as [|r rs Hr _ IH]; [reflexivity|].
  simpl. unfold getitem.
  rewrite (nth_error_nth' r d) by lia. cbn [bind]. now rewrite IH.
Qed.

(** The column of a label that a rectangular run has. *)
Lemma column_cell (df : Run F) (name : string) :
  rectangular df -> contains (columns df) name = true ->
  column df name = Ret (map (cell d df name) (rows df)).
Proof.
  intros Hr Hc. unfold column, cell.
  destruct (contains_index _ _ Hc) as (j & -> & Hj).
  now apply cells_nth with (n := length (columns df)).
Qed.

Lemma select_filter (df : Run F) (p : list F -> bool) :
  select df (map p (rows df)) = mkRun (columns df) (filter p (rows df)).
Proof.
  unfold select. f_equal. induction (rows df) as [|r rs IH]; [reflexivity|].
  simpl. destruct (p r); simpl; now rewrite IH.
Qed.

Lemma filter_twice {A : Type} (p q : A -> bool) (l : list A) :
  filter q (filter p l) = filter (fun a => p a && q a) l.
Proof.
  induction l as [|a l IH]; [reflexivity|].
  simpl. destruct (p a); simpl; [destruct (q a)|]; now rewrite IH.
Qed.

Lemma rectangular_filter (df : Run F) (p : list F -> bool) :
  rectangular df -> rectangular (mkRun (columns df) (filter p (rows df))).
Proof.
  unfold rectangular. cbn [rows columns]. intros H.
  apply Forall_forall. intros r Hr. apply filter_In in Hr as [Hr _].
  revert r Hr. now apply Forall_forall.
Qed.

(** The filtered view: the rows whose [x] value is in the range, in the
    order of the run. *)
Lemma x_range_filter_rows (args : Args.t F) (df : Run F) :
  rectangular df -> contains (columns df) (Args.x args) = true ->
  x_range_filter ops args df =
  Ret (mkRun (columns df)
         (filter (fun row => in_range ops (Args.x_min args) (Args.x_max args)
                               (cell d df (Args.x args) row))
            (rows df))).
Proof.
  intros Hr Hc. unfold x_range_filter, in_range.
  destruct (Args.x_min args) as [a|], (Args.x_max args) as [b|]; cbn [bind].
  - rewrite (column_cell df _ Hr Hc). cbn [bind].
    rewrite map_map, select_filter.
    rewrite (column_cell _ _ (rectangular_filter df _ Hr) Hc). cbn [bind].
    rewrite map_map, select_filter. cbn [rows columns].
    now rewrite filter_twice.
  - rewrite (column_cell df _ Hr Hc). cbn [bind].
    rewrite map_map, select_filter. do 2 f_equal.
    apply filter_ext. intros r. now rewrite andb_true_r.
  - rewrite (column_cell df _ Hr Hc). cbn [bind].
    now rewrite map_map, select_filter.
  - destruct df as [cols rws]. cbn [rows columns]. do 2 f_equal.
    clear. induction rws as [|r rs IH]; [reflexivity|]. simpl. now f_equal.
Qed.

Lemma x_range_filter_columns (args : Args.t F) (df df_sel : Run F) :
  x_range_filter ops args df = Ret df_sel -> columns df_sel = columns df.
Proof.
  unfold x_range_filter.
  destruct (Args.x_min args) as [a|]; cbn [bind].
  - destruct (column df (Args.x args)) as [xs| |]; cbn [bind];
      try discriminate.
    destruct (Args.x_max args) as [b|].
    + destruct (column _ (Args.x args)) as [xs'| |]; cbn [bind];
        try discriminate.
      now intros [= <-].
    + now intros [= <-].
  - destruct (Args.x_max args) as [b|].
    + destruct (column df (Args.x args)) as [xs'| |]; cbn [bind];
        try discriminate.
      now intros [= <-].
    + now intros [= <-].
Qed.

(** [main] goes on with the run it selects. *)
Lemma query_selects (args : Args.t F) (runs : list (Run F)) (df : Run F) :
  selects args runs df -> query ops args runs = on_run ops args runs df.
Proof.
  intros (Hl & Hr & Hn). unfold query.
  destruct runs as [|r0 runs']; [now destruct (Z.to_nat (Args.run args - 1))|].
  rewrite Hl.
  replace (Args.run args <? 1)%Z with false by (symmetry; apply Z.ltb_ge; lia).
  replace (Z.of_nat (length (r0 :: runs')) <? Args.run args)%Z with false
    by (symmetry; apply Z.ltb_ge; lia).
  cbn [orb]. unfold getitem. rewrite Hn. reflexivity.
Qed.

Lemma for_each_map {A B : Type} (f : A -> outcome B) (g : A -> B) (l : list A) :
  (forall a, In a l -> f a = Ret (g a)) -> for_each f l = Ret (map g l).
Proof.
  induction l as [|a l IH]; intros H; [reflexivity|].
  simpl. rewrite (H a (or_introl eq_refl)). cbn [bind].
  rewrite IH; [reflexivity|]. intros a' Ha'. apply H. now right.
Qed.

Lemma for_each_In {A B : Type} (f : A -> outcome B) (l : list A) (bs : list B) :
  for_each f l = Ret bs ->
  forall b, In b bs -> exists a, In a l /\ f a = Ret b.
Proof.
  revert bs. induction l as [|a l IH]; intros bs H b Hb; simpl in H.
  - injection H as <-. contradiction.
  - destruct (f a) as [b0| |] eqn:Hf; cbn [bind] in H; try discriminate.
    destruct (for_each f l) as [bs'| |]; cbn [bind] in H; try discriminate.
    injection H as <-. destruct Hb as [<- | Hb].
    + exists a. split; [now left | exact Hf].
    + destruct (IH bs' eq_refl b Hb) as (a' & Ha' & Hf').
      exists a'. split; [now right | exact Hf'].
Qed.

Lemma missing_nil (df : Run F) (cols : list string) :
  missing df cols = [] ->
  forall c, In c cols -> contains (columns df) c = true.
Proof.
  unfold missing. intros H c Hc.
  destruct (contains (columns df) c) eqn:E; [reflexivity|].
  assert (Hin : In c (filter (fun col => negb (contains (columns df) col)) cols)).
  { apply filter_In. split; [exact Hc | now rewrite E]. }
  rewrite H in Hin. contradiction.
Qed.

(** The averages of the columns asked for, when the run has them all. *)
Lemma averages_present (args : Args.t F) (df df_sel : Run F) :
  rectangular df_sel -> columns df_sel = columns df ->
  contains (columns df) (Args.x args) = true ->
  given (Args.avg_cols args) <> [] ->
  missing df (given (Args.avg_cols args)) = [] ->
  averages ops args df df_sel =
  Ret (AveragesHeader (Args.run args) (Args.x args)
         (bound d (Args.x_min args) (series_min ops) df_sel (Args.x args))
         (bound d (Args.x_max args) (series_max ops) df_sel (Args.x args))
       :: map (fun col =>
                 Average col
                   (series_mean ops (map (cell d df_sel col) (rows df_sel))))
            (given (Args.avg_cols args))).
Proof.
  intros Hr Hcols Hx Hg Hm. unfold averages, bound.
  destruct (given (Args.avg_cols args)) as [|c cs] eqn:Eg; [contradiction|].
  rewrite Hm. rewrite <- Hcols in Hx.
  rewrite (for_each_map _
    (fun col => Average col
                  (series_mean ops (map (cell d df_sel col) (rows df_sel))))).
  2:{ intros col Hcol. rewrite (column_cell df_sel col Hr); [reflexivity|].
      rewrite Hcols. now apply (missing_nil df (c :: cs)). }
  destruct (Args.x_min args), (Args.x_max args); cbn [bind];
    rewrite ?(column_cell df_sel _ Hr Hx); reflexivity.
Qed.

(** No average is written when a column asked for is missing. *)
Lemma averages_missing (args : Args.t F) (df df_sel : Run F) :
  missing df (given (Args.avg_cols args)) <> [] ->
  averages ops args df df_sel =
  Ret [UnknownAvgColumns; Missing (missing df (given (Args.avg_cols args)));
       AvailableColumns (columns df)].
Proof.
  intros Hm. unfold averages.
  destruct (given (Args.avg_cols args)) as [|c cs]; [now contradiction Hm|].
  destruct (missing df (c :: cs)); [contradiction|reflexivity].
Qed.

(** The figure, when the run has the columns to draw. *)
Lemma plot_present (args : Args.t F) (df df_sel : Run F) :
  rectangular df_sel -> columns df_sel = columns df ->
  contains (columns df) (Args.x args) = true ->
  given (Args.y args) <> [] ->
  missing df (given (Args.y args)) = [] ->
  plot args df_sel =
  Ret [Figure
         (mkFigure (Args.x args) (given (Args.y args))
            (map (cell d df_sel (Args.x args)) (rows df_sel))
            (map (fun col => (col, map (cell d df_sel col) (rows df_sel)))
               (given (Args.y args)))
            (Args.logfile args) (Args.run args)
            (negb (is_none (Args.x_min args))
             || negb (is_none (Args.x_max args))))].
Proof.
  intros Hr Hcols Hx Hg Hm. unfold plot.
  destruct (given (Args.y args)) as [|c cs] eqn:Eg; [contradiction|].
  rewrite <- Hcols in Hx. rewrite (column_cell df_sel _ Hr Hx). cbn [bind].
  rewrite (for_each_map _
    (fun col => (col, map (cell d df_sel col) (rows df_sel)))); [reflexivity|].
  intros col Hcol. rewrite (column_cell df_sel col Hr); [reflexivity|].
  rewrite Hcols. now apply (missing_nil df (c :: cs)).
Qed.

Lemma listing_no_EmptyResult (args : Args.t F) (runs : list (Run F)) :
  ~ In EmptyResult (listing args runs).
Proof.
  unfold listing. destruct (Args.list args); [|now intros []].
  intros [H | H]; [discriminate|].
  apply in_map_iff in H as ([idx df] & H & _). discriminate.
Qed.

Lemma averages_no_EmptyResult (args : Args.t F) (df df_sel : Run F)
    (out : list (output F)) :
  averages ops args df df_sel = Ret out -> ~ In EmptyResult out.
Proof.
  unfold averages. destruct (given (Args.avg_cols args)) as [|c cs].
  { intros [= <-] []. }
  destruct (missing df (c :: cs)).
  2:{ intros [= <-] H. simpl in H. intuition discriminate. }
  destruct (match Args.x_min args with Some a => Ret a | None => _ end)
    as [lo| |]; cbn [bind]; try discriminate.
  destruct (match Args.x_max args with Some b => Ret b | None => _ end)
    as [hi| |]; cbn [bind]; try discriminate.
  destruct (for_each _ (c :: cs)) as [avgs| |] eqn:Ef; cbn [bind];
    try discriminate.
  intros [= <-] [H | H]; [discriminate|].
  destruct (for_each_In _ _ _ Ef _ H) as (col & _ & Hcol).
  destruct (column df_sel col); cbn [bind] in Hcol; discriminate.
Qed.

Lemma plot_no_EmptyResult (args : Args.t F) (df_sel : Run F)
    (out : list (output F)) :
  plot args df_sel = Ret out -> ~ In EmptyResult out.
Proof.
  unfold plot. destruct (given (Args.y args)) as [|c cs].
  { intros [= <-] []. }
  destruct (column df_sel (Args.x args)); cbn [bind]; try discriminate.
  destruct (for_each _ (c :: cs)); cbn [bind]; try discriminate.
  intros [= <-] H. simpl in H. intuition discriminate.
Qed.

End QueryFacts.

(** ** The claims about the segmenter *)

Section SegmenterClaims.

Context {F : Type}.
Variable float : string -> option F.

Lemma parse_lammps_log_segment (content : string) :
  parse_lammps_log float content = segment float (Str.readlines content).
Proof. apply parse_lines_segment. Qed.

(** The three ways in which a line is no data line of a block. *)
Lemma not_data_line (h : list string) (l : string) :
  Str.is_empty (Str.strip l) = true \/
  (exists p ps, Str.split (Str.strip l) = p :: ps /\ float p = None) \/
  length (Str.split (Str.strip l)) <> length h ->
  data_line float h l = false.
Proof.
  unfold data_line, is_blank, numeric.
  intros [-> | [(p & ps & -> & ->) | H]]; [reflexivity | |].
  - now rewrite andb_false_r.
  - apply Nat.eqb_neq in H. rewrite H. apply andb_false_r.
Qed.

Lemma floats_bad_token (parts : list string) (p : string) :
  In p parts -> float p = None -> floats float parts = Raise ValueError.
Proof.
  intros Hin Hp. induction parts as [|q qs IH]; [contradiction|].
  simpl. destruct Hin as [-> | Hin].
  - now rewrite Hp.
  - destruct (float q); [|reflexivity]. now rewrite (IH Hin).
Qed.

End SegmenterClaims.

(** C1, as the code has it. A header line of [k] names, then [m >= 1]
    lines that are not blank, have a numeric first token and [k] tokens,
    then a blank line: when every token of these [m] lines converts, and
    the lines before and after the block are parsed without an error, the
    block gives exactly one run, between the runs of the lines before it
    and those of the lines after it. Its columns are the [k] names in
    order, and its rows are the tokens of the [m] lines converted one by
    one, in file order. *)
Theorem block_yields_one_run {F : Type} (float : string -> option F)
    (content : string) (pre : list string) (hl : string) (data : list string)
    (blank : string) (post : list string) (rws : list (list F))
    (r1 r2 : list (Run F)) :
  rejects_Step float ->
  Str.readlines content = pre ++ hl :: data ++ blank :: post ->
  Str.startswith (Str.strip hl) "Step" = true ->
  data <> [] ->
  Forall (fun l => data_line float (Str.split (Str.strip hl)) l = true) data ->
  Forall2 (fun l row =>
             Forall2 (fun p v => float p = Some v) (Str.split (Str.strip l)) row)
    data rws ->
  Str.is_empty (Str.strip blank) = true ->
  parse_lines float pre = Ret r1 ->
  parse_lines float post = Ret r2 ->
  parse_lammps_log float content =
  Ret (r1 ++ mkRun (Str.split (Str.strip hl)) rws :: r2).
Proof.
  intros HS Hl Hh Hne Hd Hr Hb H1 H2.
  rewrite parse_lines_segment in H1, H2.
  rewrite parse_lammps_log_segment, Hl.
  rewrite (segment_app_header float HS pre hl _ Hh), H1. cbn [bind].
  assert (Hr' : Forall2 (fun l row => row_of float l = Ret row) data rws).
  { clear -Hr. induction Hr as [|l row data rws Hl _ IH]; constructor;
      [|exact IH].
    now apply floats_Ret_iff. }
  rewrite (segment_block float hl data blank post rws Hh Hne Hd Hr' Hb), H2.
  reflexivity.
Qed.

(** The block of [small_log]: two rows under [Step Temp]. *)
Lemma block_yields_one_run_witness :
  parse_lammps_log Float64.py_float Examples.small_log =
  Ret [mkRun ["Step"; "Temp"]%string
         [[0%float; 300.5%float]; [100%float; 301.5%float]]].
Proof.
  apply (block_yields_one_run Float64.py_float Examples.small_log []
           ("Step Temp" ++ String Str.LF "")%string
           [("0 300.5" ++ String Str.LF "")%string;
            ("100 301.5" ++ String Str.LF "")%string]
           (String Str.LF "") []
           [[0%float; 300.5%float]; [100%float; 301.5%float]] [] []).
  - exact Float64Facts.py_float_Step.
  - reflexivity.
  - reflexivity.
  - discriminate.
  - repeat constructor.
  - repeat constructor.
  - reflexivity.
  - reflexivity.
  - reflexivity.
Defined.

(** C1 as it is stated fails: the line [0 abc] is not blank, its first
    token is numeric and it has the two tokens of the header, and no run
    comes out, since [float("abc")] raises. *)
Lemma block_with_bad_token_gives_no_run :
  Str.readlines Examples.bad_token_log =
    [("Step Temp" ++ String Str.LF "")%string;
     ("0 abc" ++ String Str.LF "")%string; String Str.LF ""]
  /\ data_line Float64.py_float ["Step"; "Temp"]%string
       ("0 abc" ++ String Str.LF "")%string = true
  /\ parse_lammps_log Float64.py_float Examples.bad_token_log
     = Raise ValueError.
Proof. repeat split; vm_compute; reflexivity. Qed.

(** C4. Every run that the segmenter gives has at least one row, and
    each of its rows has as many values as the run has columns. A header
    with no data line right after it (the next line is blank, or its first
    token is not numeric, or it has another number of tokens, or there is
    no next line) gives no run: the runs are those of the lines before the
    header and those of the lines after it. *)
Theorem runs_have_rows_of_header_length {F : Type} (float : string -> option F)
    (content : string) :
  (forall runs, parse_lammps_log float content = Ret runs ->
     Forall well_formed runs)
  /\
  (forall pre hl rest,
     rejects_Step float ->
     Str.readlines content = pre ++ hl :: rest ->
     Str.startswith (Str.strip hl) "Step" = true ->
     match rest with
     | [] => True
     | l :: _ =>
         Str.is_empty (Str.strip l) = true \/
         (exists p ps, Str.split (Str.strip l) = p :: ps /\ float p = None) \/
         length (Str.split (Str.strip l)) <> length (Str.split (Str.strip hl))
     end ->
     parse_lammps_log float content =
     r1 <- parse_lines float pre ;;
     r2 <- parse_lines float rest ;; Ret (r1 ++ r2)).
Proof.
  split.
  - intros runs H. rewrite parse_lammps_log_segment in H.
    exact (segment_well_formed float _ _ H).
  - intros pre hl rest HS Hl Hh Hrest.
    rewrite !parse_lines_segment, parse_lammps_log_segment, Hl.
    rewrite (segment_app_header float HS pre hl _ Hh).
    rewrite (segment_header_no_data float hl rest Hh); [reflexivity|].
    destruct rest as [|l rest]; [exact I|].
    now apply not_data_line.
Qed.

(** [bare_header_log]: the first header is followed by a line of text, and
    only the second header gives a run. *)
Lemma runs_have_rows_of_header_length_witness :
  Forall well_formed
    [mkRun ["Step"; "Temp"]%string [[0%float; 300.5%float]]]
  /\ parse_lammps_log Float64.py_float Examples.bare_header_log =
     Ret [mkRun ["Step"; "Temp"]%string [[0%float; 300.5%float]]].
Proof.
  pose proof (runs_have_rows_of_header_length Float64.py_float
                Examples.bare_header_log) as [Hwf Hbare].
  assert (E : parse_lammps_log Float64.py_float Examples.bare_header_log =
              Ret [mkRun ["Step"; "Temp"]%string [[0%float; 300.5%float]]]).
  { rewrite (Hbare [] ("Step Temp Press" ++ String Str.LF "")%string
               [("Loop time of 1.5" ++ String Str.LF "")%string;
                ("Step Temp" ++ String Str.LF "")%string;
                ("0 300.5" ++ String Str.LF "")%string]).
    - reflexivity.
    - exact Float64Facts.py_float_Step.
    - reflexivity.
    - reflexivity.
    - right. left. exists "Loop"%string, ["time"; "of"; "1.5"]%string.
      split; reflexivity. }
  split; [apply Hwf|]; exact E.
Defined.

(** C8. A line that the block accepts (not blank, numeric first token,
    the header's number of tokens) and that has a token that does not
    convert makes the parse end with [ValueError]: nothing catches it, in
    [parse_lammps_log] or in [main]. *)
Theorem bad_token_raises_ValueError {F : Type} (float : string -> option F)
    (ops : SeriesOps F) (args : Args.t F)
    (content : string) (pre : list string) (hl : string) (data : list string)
    (bad : string) (post : list string) (p : string) :
  rejects_Step float ->
  Str.readlines content = pre ++ hl :: data ++ bad :: post ->
  Str.startswith (Str.strip hl) "Step" = true ->
  Forall (fun l => data_line float (Str.split (Str.strip hl)) l = true) data ->
  data_line float (Str.split (Str.strip hl)) bad = true ->
  In p (Str.split (Str.strip bad)) -> float p = None ->
  parse_lammps_log float content = Raise ValueError
  /\ main float ops args content = Raise ValueError.
Proof.
  intros HS Hl Hh Hd Hb Hin Hp.
  assert (E : parse_lammps_log float content = Raise ValueError).
  { rewrite parse_lammps_log_segment, Hl.
    rewrite (segment_app_header float HS pre hl _ Hh).
    assert (E : segment float (hl :: data ++ bad :: post) = Raise ValueError).
    { rewrite segment_cons. unfold is_header, header_of. rewrite Hh.
      rewrite (collect_bad float _ data bad post Hd Hb); [reflexivity|].
      exact (floats_bad_token float _ p Hin Hp). }
    rewrite E. destruct (segment_cases float pre) as [[r1 ->] | ->];
      reflexivity. }
  split; [exact E|]. unfold main. now rewrite E.
Qed.

Lemma bad_token_raises_ValueError_witness :
  parse_lammps_log Float64.py_float Examples.bad_token_log = Raise ValueError
  /\ main Float64.py_float Float64.ops Examples.example_args
       Examples.bad_token_log = Raise ValueError.
Proof.
  apply (bad_token_raises_ValueError Float64.py_float Float64.ops
           Examples.example_args Examples.bad_token_log []
           ("Step Temp" ++ String Str.LF "")%string []
           ("0 abc" ++ String Str.LF "")%string [String Str.LF ""]
           "abc"%string).
  - exact Float64Facts.py_float_Step.
  - reflexivity.
  - reflexivity.
  - constructor.
  - reflexivity.
  - right. left. reflexivity.
  - reflexivity.
Defined.

(** C9, as the code has it. A line is a header line exactly when, once
    stripped, it starts with the four characters [Step], whatever comes
    after them ([Steps], [Stepper] and [StepSize] are read as headers
    too). Such a line is never read as a row: it starts a block whose
    columns are its tokens, and the runs of the file are those of the
    lines before it, the run of its block if the block has a row, and
    those of the lines after the block. A line that does not start with
    [Step] and is in no block is passed over. A file in which no line
    starts with [Step] has no run. *)
Theorem header_is_a_Step_prefix {F : Type} (float : string -> option F) :
  rejects_Step float ->
  (forall content pre hl rest,
     Str.readlines content = pre ++ hl :: rest ->
     Str.startswith (Str.strip hl) "Step" = true ->
     parse_lammps_log float content =
     r1 <- parse_lines float pre ;;
     '(rs, k) <- collect float (Str.split (Str.strip hl)) rest ;;
     r2 <- parse_lines float (skipn k rest) ;;
     Ret (r1 ++ emit (Str.split (Str.strip hl)) rs ++ r2))
  /\
  (forall raw rest,
     Str.startswith (Str.strip raw) "Step" = false ->
     parse_lines float (raw :: rest) = parse_lines float rest)
  /\
  (forall content,
     Forall (fun l => Str.startswith (Str.strip l) "Step" = false)
       (Str.readlines content) ->
     parse_lammps_log float content = Ret []).
Proof.
  intros HS. repeat split.
  - intros content pre hl rest Hl Hh.
    rewrite !parse_lines_segment, parse_lammps_log_segment, Hl.
    rewrite (segment_app_header float HS pre hl _ Hh), segment_cons.
    unfold is_header, header_of. rewrite Hh.
    destruct (segment float pre) as [r1| |]; cbn [bind]; try reflexivity.
    destruct (collect float _ rest) as [[rs k]| |]; cbn [bind];
      try reflexivity.
    rewrite parse_lines_segment.
    destruct (segment float (skipn k rest)); reflexivity.
  - intros raw rest Hh. rewrite !parse_lines_segment, segment_cons.
    unfold is_header. now rewrite Hh.
  - intros content H. rewrite parse_lammps_log_segment.
    now apply segment_no_header.
Qed.

(** The second header of [bare_header_log] starts a block of one row. *)
Lemma header_is_a_Step_prefix_witness :
  parse_lammps_log Float64.py_float Examples.bare_header_log =
  Ret [mkRun ["Step"; "Temp"]%string [[0%float; 300.5%float]]].
Proof.
  destruct (header_is_a_Step_prefix Float64.py_float
              Float64Facts.py_float_Step) as (H & _ & _).
  rewrite (H Examples.bare_header_log
             [("Step Temp Press" ++ String Str.LF "")%string;
              ("Loop time of 1.5" ++ String Str.LF "")%string]
             ("Step Temp" ++ String Str.LF "")%string
             [("0 300.5" ++ String Str.LF "")%string]);
    reflexivity.
Defined.

(** C9 as it is stated fails: the first token of [Stepper Temp] is not
    [Step], and the line is read as a header all the same. *)
Lemma Stepper_is_read_as_a_header :
  Str.split (Str.strip ("Stepper Temp" ++ String Str.LF "")%string)
    = ["Stepper"; "Temp"]%string
  /\ String.eqb "Stepper" "Step" = false
  /\ parse_lammps_log Float64.py_float Examples.stepper_log =
     Ret [mkRun ["Stepper"; "Temp"]%string [[1%float; 2%float]]].
Proof. repeat split; vm_compute; reflexivity. Qed.

(** C10. The segmenter ends on every input: with one unit of fuel more
    than there are lines, or any larger amount, the two loops give the
    same result, which is a list of runs or [ValueError], and when it is a
    list of runs the outer loop has stopped with its cursor at the end of
    the input. One run of the
    outer loop's body moves the cursor forward and not past the end; one
    run of the inner loop's body reads a row and moves the cursor by one,
    or breaks and leaves the cursor on the line, which the outer loop then
    passes. The rows of all the runs are conversions of lines taken out
    of the input in its order, so no line gives a row to two runs. *)
Theorem segmenter_terminates {F : Type} (float : string -> option F)
    (content : string) :
  ((exists runs, parse_lammps_log float content = Ret runs) \/
   parse_lammps_log float content = Raise ValueError)
  /\
  (forall fuel, length (Str.readlines content) < fuel ->
     scan float (Str.readlines content) fuel = parse_lammps_log float content)
  /\
  (forall fuel runs,
     length (Str.readlines content) < fuel ->
     parse_lammps_log float content = Ret runs ->
     while fuel (fun st => fst st <? length (Str.readlines content))
       (outer_body float (Str.readlines content) fuel) (0, [])
     = Ret (length (Str.readlines content), runs))
  /\
  (forall fuel i runs,
     i < length (Str.readlines content) ->
     length (Str.readlines content) < fuel ->
     (exists i' runs',
        outer_body float (Str.readlines content) fuel (i, runs)
          = Ret (Next (i', runs'))
        /\ i < i' <= length (Str.readlines content)) \/
     outer_body float (Str.readlines content) fuel (i, runs)
       = Raise ValueError)
  /\
  (forall headers i data,
     i < length (Str.readlines content) ->
     (exists row, inner_body float (Str.readlines content) headers (i, data)
                  = Ret (Next (S i, data ++ [row]))) \/
     inner_body float (Str.readlines content) headers (i, data)
       = Ret (Break (i, data)) \/
     inner_body float (Str.readlines content) headers (i, data)
       = Raise ValueError)
  /\
  (forall runs, parse_lammps_log float content = Ret runs ->
     exists used,
       subseq used (Str.readlines content) /\
       Forall2 (fun l row => floats float (Str.split (Str.strip l)) = Ret row)
         used (concat (map rows runs))).
Proof.
  repeat split.
  - rewrite parse_lammps_log_segment. apply segment_cases.
  - intros fuel Hf. rewrite parse_lammps_log_segment.
    now apply scan_enough_fuel.
  - intros fuel runs Hf H. rewrite parse_lammps_log_segment in H.
    now apply outer_loop_end.
  - intros fuel i runs. apply outer_body_advances.
  - intros headers i data. apply inner_body_steps.
  - intros runs H. rewrite parse_lammps_log_segment in H.
    exact (segment_rows_subseq float _ _ H).
Qed.

(** On the example of the specification the scan returns, with the fuel
    of the model and with more. *)
Lemma segmenter_terminates_witness :
  (exists runs,
     parse_lammps_log Float64.py_float Examples.example_log = Ret runs)
  /\ scan Float64.py_float (Str.readlines Examples.example_log) 100
     = parse_lammps_log Float64.py_float Examples.example_log.
Proof.
  destruct (segmenter_terminates Float64.py_float Examples.example_log)
    as (H1 & H2 & _).
  split.
  - destruct H1 as [H1 | H1]; [exact H1 | discriminate H1].
  - apply H2. vm_compute. lia.
Defined.

(** ** The claims about the query engine *)

Section QueryClaims.

Context {F : Type}.
Variable ops : SeriesOps F.

Lemma contains_nonempty (cols : list string) (name : string) :
  contains cols name = true -> cols <> [].
Proof. now destruct cols. Qed.

(** The view is empty when it has no row: the run has columns. *)
Lemma empty_rows (args : Args.t F) (df df_sel : Run F) :
  contains (columns df) (Args.x args) = true ->
  x_range_filter ops args df = Ret df_sel ->
  empty df_sel = match rows df_sel with [] => true | _ :: _ => false end.
Proof.
  intros Hx Hf. apply x_range_filter_columns in Hf.
  apply contains_nonempty in Hx. unfold empty. rewrite Hf.
  destruct (rows df_sel); [reflexivity|]. now destruct (columns df).
Qed.

(** What [main] does with the run it selected, when [x] is a column and
    the view is not empty. *)
Lemma on_run_view (args : Args.t F) (runs : list (Run F)) (df df_sel : Run F) :
  contains (columns df) (Args.x args) = true ->
  x_range_filter ops args df = Ret df_sel ->
  on_run ops args runs df = respond ops args runs df df_sel.
Proof.
  intros Hx Hf. unfold on_run. now rewrite Hx, Hf.
Qed.

(** An empty view is reported before [y] and [avg_cols] are looked at. *)
Lemma query_empty_view (args : Args.t F) (runs : list (Run F))
    (df df_sel : Run F) :
  selects args runs df ->
  contains (columns df) (Args.x args) = true ->
  x_range_filter ops args df = Ret df_sel ->
  rows df_sel = [] ->
  query ops args runs = Ret (listing args runs ++ [EmptyResult]).
Proof.
  intros Hsel Hx Hf Hrows.
  rewrite (query_selects ops args runs df Hsel).
  rewrite (on_run_view args runs df df_sel Hx Hf).
  unfold respond. rewrite (empty_rows args df df_sel Hx Hf).
  now rewrite Hrows.
Qed.

End QueryClaims.

(** C2. The end-to-end example of the specification: the segmenter gives
    two runs, of 3 and of 2 rows, and the average of [Temp] over run 1 for
    [Step] between 0 and 100 is (300.0 + 301.5) / 2 = 300.75. *)
Theorem example_two_runs_and_average :
  (exists run1 run2,
     parse_lammps_log Float64.py_float Examples.example_log
       = Ret [run1; run2]
     /\ length (rows run1) = 3 /\ length (rows run2) = 2)
  /\ main Float64.py_float Float64.ops Examples.example_args
       Examples.example_log
     = Ret [AveragesHeader 1 "Step" 0%float 100%float;
            Average "Temp" 300.75%float]
  /\ ((300.0 + 301.5) / 2 = 300.75)%float.
Proof.
  split; [|split].
  - eexists _, _. split; [vm_compute; reflexivity|]. split; reflexivity.
  - vm_compute. reflexivity.
  - reflexivity.
Qed.

(** C3, as the code has it. The filtered view holds, in the order of the
    run, exactly the rows whose [x] value [v] passes each bound that is
    given: [A <= v] for a lower bound [A] and [v <= B] for an upper bound
    [B], both inclusive, as IEEE 754 compares. A bound that is absent
    leaves its side free. For a run whose [x] values are not NaN that is
    the same as a lower bound of minus infinity and an upper bound of
    plus infinity. *)
Theorem x_range_keeps_rows_within_bounds (args : Args.t float)
    (df : Run float) :
  rectangular df -> NoDup (columns df) -> In (Args.x args) (columns df) ->
  x_range_filter Float64.ops args df =
  Ret (mkRun (columns df)
         (filter
            (fun row =>
               match Args.x_min args with
               | Some a => PrimFloat.leb a (cell nan df (Args.x args) row)
               | None => true
               end
               && match Args.x_max args with
                  | Some b => PrimFloat.leb (cell nan df (Args.x args) row) b
                  | None => true
                  end)
            (rows df)))
  /\
  (Forall (fun row => PrimFloat.is_nan (cell nan df (Args.x args) row) = false)
     (rows df) ->
   x_range_filter Float64.ops args df =
   x_range_filter Float64.ops
     (Args.with_bounds args
        (Some match Args.x_min args with Some a => a | None => neg_infinity end)
        (Some match Args.x_max args with Some b => b | None => infinity end))
     df).
Proof.
  intros Hr _ Hx. apply contains_In in Hx. split.
  - exact (x_range_filter_rows Float64.ops nan args df Hr Hx).
  - intros Hnan.
    rewrite (x_range_filter_rows Float64.ops nan args df Hr Hx).
    rewrite (x_range_filter_rows Float64.ops nan
               (Args.with_bounds args _ _) df Hr Hx).
    do 2 f_equal. apply filter_ext_in. intros row Hrow.
    rewrite Forall_forall in Hnan. specialize (Hnan row Hrow).
    assert (Hv : Float64.not_nan (cell nan df (Args.x args) row) = true)
      by (unfold Float64.not_nan; now rewrite Hnan).
    unfold in_range. cbn [Args.with_bounds Args.x_min Args.x_max Args.x].
    cbn [series_ge series_le Float64.ops]. unfold Float64.ge, Float64.le.
    destruct (Args.x_min args), (Args.x_max args);
      rewrite ?(Float64Facts.neg_infinity_le _ Hv),
              ?(Float64Facts.le_infinity _ Hv); reflexivity.
Qed.

(** Run 1 of the example between 0 and 100: the first two rows. *)
Lemma x_range_keeps_rows_within_bounds_witness :
  x_range_filter Float64.ops Examples.example_args
    (mkRun ["Step"; "Temp"]%string
       [[0; 300]; [100; 301.5]; [200; 299.75]]%float)
  = Ret (mkRun ["Step"; "Temp"]%string [[0; 300]; [100; 301.5]]%float).
Proof.
  refine (eq_trans
    (proj1 (x_range_keeps_rows_within_bounds Examples.example_args
              (mkRun ["Step"; "Temp"]%string
                 [[0; 300]; [100; 301.5]; [200; 299.75]]%float) _ _ _)) _).
  - repeat constructor.
  - repeat constructor; simpl; intuition discriminate.
  - left. reflexivity.
  - reflexivity.
Defined.

(** C3 as it is stated fails on a run whose [x] column holds a NaN: with
    no lower bound the row of the NaN stays in the view, and with a lower
    bound of minus infinity it does not. *)
Lemma absent_bound_is_not_minus_infinity :
  parse_lammps_log Float64.py_float Examples.nan_log
    = Ret [mkRun ["Step"; "Temp"]%string [[nan; 1]; [5; 2]]%float]
  /\ x_range_filter Float64.ops (Examples.call None None None None)
       (mkRun ["Step"; "Temp"]%string [[nan; 1]; [5; 2]]%float)
     = Ret (mkRun ["Step"; "Temp"]%string [[nan; 1]; [5; 2]]%float)
  /\ x_range_filter Float64.ops
       (Examples.call None (Some neg_infinity) None None)
       (mkRun ["Step"; "Temp"]%string [[nan; 1]; [5; 2]]%float)
     = Ret (mkRun ["Step"; "Temp"]%string [[5; 2]]%float).
Proof. repeat split; vm_compute; reflexivity. Qed.




(** C6, as the code has it. Once a run is selected whose column names are
    distinct, and [x] is one of them, [main] reports an empty result
    exactly when the filter leaves no row, whether or not an average or a
    plot was asked for: the test comes first. When the view has a row and
    neither [y] nor [avg_cols] names a column, [main] reports that nothing
    was requested. *)
Theorem empty_view_is_reported_first {F : Type} (ops : SeriesOps F)
    (args : Args.t F) (runs : list (Run F)) (df df_sel : Run F) :
  selects args runs df ->
  NoDup (columns df) -> In (Args.x args) (columns df) ->
  x_range_filter ops args df = Ret df_sel ->
  (rows df_sel = [] ->
   query ops args runs = Ret (listing args runs ++ [EmptyResult]))
  /\
  (rows df_sel <> [] ->
   forall out, query ops args runs = Ret out -> ~ In EmptyResult out)
  /\
  (rows df_sel <> [] ->
   given (Args.y args) = [] -> given (Args.avg_cols args) = [] ->
   query ops args runs = Ret (listing args runs ++ [NothingRequested])).
Proof.
  intros Hsel _ Hx Hf. apply contains_In in Hx.
  rewrite (query_selects ops args runs df Hsel).
  rewrite (on_run_view ops args runs df df_sel Hx Hf).
  unfold respond. rewrite (empty_rows ops args df df_sel Hx Hf).
  repeat split.
  - now intros ->.
  - intros Hne out. destruct (rows df_sel) as [|r0 rs0]; [contradiction|].
    pose proof (listing_no_EmptyResult args runs) as Hl.
    destruct (no_column (given (Args.y args))
              && no_column (given (Args.avg_cols args))).
    { intros [= <-] H. apply in_app_or in H as [H | H];
        [now apply Hl | simpl in H; intuition discriminate]. }
    destruct (missing df (given (Args.y args))).
    2:{ intros [= <-] H. apply in_app_or in H as [H | H];
          [now apply Hl | simpl in H; intuition discriminate]. }
    destruct (averages ops args df df_sel) as [avg_out| |] eqn:Ea;
      cbn [bind]; try discriminate.
    destruct (plot args df_sel) as [plot_out| |] eqn:Ep;
      cbn [bind]; try discriminate.
    intros [= <-] H. apply in_app_or in H as [H | H]; [now apply Hl|].
    apply in_app_or in H as [H | H].
    + exact (averages_no_EmptyResult ops args df df_sel avg_out Ea H).
    + exact (plot_no_EmptyResult args df_sel plot_out Ep H).
  - intros Hne -> ->. now destruct (rows df_sel).
Qed.

(** A lower bound of 500 on run 1 of the example, with a request. *)
Lemma empty_view_is_reported_first_witness :
  query Float64.ops
    (Examples.call None (Some 500%float) None (Some ["Temp"%string]))
    [mkRun ["Step"; "Temp"]%string [[0; 300]; [100; 301.5]]%float]
  = Ret ([] ++ [EmptyResult]).
Proof.
  refine (proj1 (empty_view_is_reported_first Float64.ops
    (Examples.call None (Some 500%float) None (Some ["Temp"%string]))
    [mkRun ["Step"; "Temp"]%string [[0; 300]; [100; 301.5]]%float]
    (mkRun ["Step"; "Temp"]%string [[0; 300]; [100; 301.5]]%float)
    (mkRun ["Step"; "Temp"]%string [])
    _ _ _ _) _).
  - repeat split; vm_compute; congruence.
  - repeat constructor; simpl; intuition discriminate.
  - left. reflexivity.
  - reflexivity.
  - reflexivity.
Defined.

(** C6 as it is stated fails: with a range that leaves no row and neither
    an average nor a plot asked for, [main] reports an empty result, and
    not that nothing was requested. *)
Lemma empty_result_without_a_request :
  main Float64.py_float Float64.ops
    (Examples.call None (Some 500%float) None None) Examples.example_log
  = Ret [EmptyResult].
Proof. vm_compute. reflexivity. Qed.

(** C7, as the code has it. For the run that [main] selects, when its
    column names are distinct:
    if [x] is not one of its columns, [main] names [x], lists the columns
    of the run and returns, with no average and no figure;
    if [x] is a column and the view has a row, and some [y] column is
    missing, [main] names the missing [y] columns, lists the columns of
    the run and returns, with no average and no figure;
    if no [y] column is missing and some averaging column is, [main]
    names the missing averaging columns, lists the columns of the run and
    writes no average at all; what follows is the plot step.
    The columns [y] and [avg_cols] are looked at only when the view has a
    row: an empty view is reported first. *)
Theorem unknown_columns_are_reported {F : Type} (ops : SeriesOps F)
    (args : Args.t F) (runs : list (Run F)) (df : Run F) :
  selects args runs df -> NoDup (columns df) ->
  (~ In (Args.x args) (columns df) ->
   query ops args runs =
   Ret (listing args runs
        ++ [UnknownXColumn (Args.x args) (Args.run args);
            AvailableColumns (columns df)]))
  /\
  (forall df_sel,
     In (Args.x args) (columns df) ->
     x_range_filter ops args df = Ret df_sel ->
     rows df_sel <> [] ->
     (missing df (given (Args.y args)) <> [] ->
      query ops args runs =
      Ret (listing args runs
           ++ [UnknownYColumns (Args.run args);
               Missing (missing df (given (Args.y args)));
               AvailableColumns (columns df)]))
     /\
     (missing df (given (Args.y args)) = [] ->
      missing df (given (Args.avg_cols args)) <> [] ->
      query ops args runs =
      plot_out <- plot args df_sel ;;
      Ret (listing args runs
           ++ [UnknownAvgColumns;
               Missing (missing df (given (Args.avg_cols args)));
               AvailableColumns (columns df)]
           ++ plot_out)))
  /\
  (forall df_sel,
     In (Args.x args) (columns df) ->
     x_range_filter ops args df = Ret df_sel ->
     rows df_sel = [] ->
     query ops args runs = Ret (listing args runs ++ [EmptyResult])).
Proof.
  intros Hsel _. split; [|split].
  3:{ intros df_sel Hx Hf Hrows. apply contains_In in Hx.
      exact (query_empty_view ops args runs df df_sel Hsel Hx Hf Hrows). }
  all: rewrite (query_selects ops args runs df Hsel).
  - intros Hx. unfold on_run.
    replace (contains (columns df) (Args.x args)) with false; [reflexivity|].
    destruct (contains (columns df) (Args.x args)) eqn:E; [|reflexivity].
    apply contains_In in E. contradiction.
  - intros df_sel Hx Hf Hne. apply contains_In in Hx.
    rewrite (on_run_view ops args runs df df_sel Hx Hf).
    unfold respond. rewrite (empty_rows ops args df df_sel Hx Hf).
    destruct (rows df_sel) as [|r0 rs0]; [contradiction|]. split.
    + intros Hm.
      replace (no_column (given (Args.y args))) with false.
      2:{ destruct (given (Args.y args)); [now contradiction Hm|reflexivity]. }
      cbn [andb]. destruct (missing df (given (Args.y args)));
        [contradiction|reflexivity].
    + intros Hmy Hma.
      replace (no_column (given (Args.avg_cols args))) with false.
      2:{ destruct (given (Args.avg_cols args));
            [now contradiction Hma|reflexivity]. }
      rewrite andb_false_r, Hmy.
      rewrite (averages_missing ops args df df_sel Hma). reflexivity.
Qed.

(** Run 1 of the example with [--y Bogus]. *)
Lemma unknown_columns_are_reported_witness :
  query Float64.ops (Examples.call (Some ["Bogus"%string]) None None None)
    [mkRun ["Step"; "Temp"]%string [[0; 300]; [100; 301.5]]%float]
  = Ret ([] ++ [UnknownYColumns 1; Missing ["Bogus"%string];
                AvailableColumns ["Step"; "Temp"]%string]).
Proof.
  refine (proj1 (proj1 (proj2 (unknown_columns_are_reported Float64.ops
    (Examples.call (Some ["Bogus"%string]) None None None)
    [mkRun ["Step"; "Temp"]%string [[0; 300]; [100; 301.5]]%float]
    (mkRun ["Step"; "Temp"]%string [[0; 300]; [100; 301.5]]%float) _ _))
    (mkRun ["Step"; "Temp"]%string [[0; 300]; [100; 301.5]]%float) _ _ _) _).
  - repeat split; vm_compute; congruence.
  - repeat constructor; simpl; intuition discriminate.
  - left. reflexivity.
  - reflexivity.
  - discriminate.
  - discriminate.
Defined.

(** C7 as it is stated fails in two ways. With a [y] column that the run
    has and an averaging column that it has not, [main] names the missing
    column and still draws the figure. With a [y] column that the run has
    not and a range that leaves no row, [main] reports the empty result
    and names no column. *)
Lemma unknown_column_is_not_all_or_nothing :
  main Float64.py_float Float64.ops
    (Examples.call (Some ["Temp"%string]) None None (Some ["Bogus"%string]))
    Examples.small_log
  = Ret [UnknownAvgColumns; Missing ["Bogus"%string];
         AvailableColumns ["Step"; "Temp"]%string;
         Figure (mkFigure "Step" ["Temp"%string] [0; 100]%float
                   [("Temp"%string, [300.5; 301.5]%float)]
                   "log.lammps" 1 false)]
  /\ main Float64.py_float Float64.ops
       (Examples.call (Some ["Bogus"%string]) (Some 500%float) None None)
       Examples.small_log
     = Ret [EmptyResult].
Proof. split; vm_compute; reflexivity. Qed.

(** ** Further properties of the segmenter *)

Section SegmenterMore.

Context {F : Type}.
Variable float : string -> option F.

Lemma never_data_line (h : list string) (raw : string) :
  never_data float raw -> data_line float h raw = false.
Proof.
  unfold data_line, is_blank, numeric.
  intros [-> | (p & ps & -> & ->)]; [reflexivity|].
  now rewrite andb_false_r.
Qed.

(** The runs of a list of lines split at a line that no block reads as a
    row. *)
Lemma segment_app_stop (pre : list string) (stop : string) (rest : list string) :
  never_data float stop ->
  segment float (pre ++ stop :: rest) =
  r1 <- segment float pre ;;
  r2 <- segment float (stop :: rest) ;; Ret (r1 ++ r2).
Proof.
  intros Hs. remember (length pre) as n eqn:Hn.
  revert pre Hn. induction n as [n IH] using lt_wf_ind. intros pre Hn.
  destruct pre as [|raw pre].
  - cbn [app]. change (segment float []) with (@Ret (list (Run F)) []).
    cbn [bind app]. destruct (segment float (stop :: rest)); reflexivity.
  - rewrite <- app_comm_cons, !(segment_cons float raw).
    destruct (is_header raw).
    + rewrite (collect_app_stop float _ _ _ _
                 (never_data_line (header_of raw) _ Hs)).
      destruct (collect float (header_of raw) pre) as [[rs k]| |] eqn:Hc;
        cbn [bind]; try reflexivity.
      destruct (collect_bound float _ _ _ _ Hc) as [Hk _].
      rewrite skipn_app. replace (k - length pre) with 0 by lia.
      cbn [skipn]. rewrite (IH (length (skipn k pre))); [| |reflexivity].
      2:{ subst n. rewrite length_skipn. simpl. lia. }
      destruct (segment float (skipn k pre)) as [r1| |]; cbn [bind];
        try reflexivity.
      destruct (segment float (stop :: rest)) as [r2| |]; cbn [bind];
        try reflexivity.
      now rewrite app_assoc.
    + apply (IH (length pre)); [|reflexivity]. subst n. simpl. lia.
Qed.


(** Lines none of which a block reads as a row give no run. *)
Lemma segment_no_data (ls : list string) :
  Forall (never_data float) ls -> segment float ls = Ret [].
Proof.
  induction 1 as [|raw ls Hraw Hls IH]; [reflexivity|].
  destruct (is_header raw) eqn:Hh.
  - rewrite (segment_header_no_data float raw ls Hh); [exact IH|].
    destruct Hls as [|l ls' Hl _]; [exact I|].
    now apply never_data_line.
  - now rewrite segment_cons, Hh.
Qed.

(** The scan reads a line through [strip] only. *)
Lemma segment_from_strip (ls1 ls2 : list string) :
  map Str.strip ls1 = map Str.strip ls2 ->
  forall k, segment_from float k ls1 = segment_from float k ls2.
Proof.
  revert ls2. induction ls1 as [|a ls1 IH]; intros [|b ls2] H k;
    try discriminate; [reflexivity|].
  injection H as Hab Hls.
  assert (Hc : forall h, collect float h ls1 = collect float h ls2).
  { clear -Hls. revert ls2 Hls.
    induction ls1 as [|a ls1 IH]; intros [|b ls2] H h; try discriminate;
      [reflexivity|].
    injection H as Hab Hls. cbn [collect].
    unfold data_line, is_blank, row_of. rewrite Hab, (IH ls2 Hls h).
    reflexivity. }
  cbn [segment_from]. destruct k as [|k]; [|now apply IH].
  unfold is_header, header_of. rewrite Hab, Hc.
  destruct (Str.startswith (Str.strip b) "Step"); [|now apply IH].
  destruct (collect float (Str.split (Str.strip b)) ls2) as [[rs j]| |];
    cbn [bind]; try reflexivity.
  now rewrite (IH ls2 Hls j).
Qed.

Lemma In_skipn {A : Type} (a : A) (k : nat) (l : list A) :
  In a (skipn k l) -> In a l.
Proof.
  intros H. rewrite <- (firstn_skipn k l). apply in_or_app. now right.
Qed.

Lemma In_firstn {A : Type} (a : A) (k : nat) (l : list A) :
  In a (firstn k l) -> In a l.
Proof.
  intros H. rewrite <- (firstn_skipn k l). apply in_or_app. now left.
Qed.

(** The columns of every run are the tokens of a header line of the
    input. *)
Lemma segment_columns (ls : list string) (runs : list (Run F)) :
  segment float ls = Ret runs ->
  Forall (fun r => exists hl, In hl ls /\ is_header hl = true
                              /\ columns r = header_of hl) runs.
Proof.
  revert runs. apply segment_blocks_ind with
    (P := fun ls o => forall runs : list (Run F), o = Ret runs ->
            Forall (fun r => exists hl, In hl ls /\ is_header hl = true
                                        /\ columns r = header_of hl) runs);
    clear ls.
  - intros runs [= <-]. constructor.
  - intros raw ls _ IH runs H. specialize (IH runs H).
    apply Forall_impl with (2 := IH).
    intros r (hl & Hin & Hh & Hc). exists hl. split; [now right | now split].
  - discriminate.
  - discriminate.
  - intros raw ls rs k Hh _ IH runs H.
    destruct (segment float (skipn k ls)) as [runs'| |]; cbn [bind] in H;
      try discriminate.
    injection H as <-. apply Forall_app. split.
    + destruct rs; cbn [emit]; constructor; [|constructor].
      exists raw. split; [now left | now split].
    + apply Forall_impl with (2 := IH runs' eq_refl).
      intros r (hl & Hin & Hh' & Hc). exists hl.
      split; [right; now apply In_skipn with (k := k) | now split].
Qed.

(** A conversion that raises has a token that does not convert. *)
Lemma floats_Raise_inv (parts : list string) (e : exn) :
  floats float parts = Raise e ->
  e = ValueError /\ exists p, In p parts /\ float p = None.
Proof.
  induction parts as [|q qs IH]; simpl; [discriminate|].
  destruct (float q) as [v|] eqn:Hq.
  - destruct (floats float qs) as [vs| |]; cbn [bind]; try discriminate.
    intros [= <-]. destruct (IH eq_refl) as (He & p & Hin & Hp).
    split; [exact He|]. exists p. split; [now right | exact Hp].
  - intros [= <-]. split; [reflexivity|]. exists q. split; [now left|exact Hq].
Qed.

(** A block that raises has read a data line with such a token. *)
Lemma collect_Raise_inv (h ls : list string) (e : exn) :
  collect float h ls = Raise e ->
  e = ValueError /\
  exists l p, In l ls /\ data_line float h l = true
              /\ In p (Str.split (Str.strip l)) /\ float p = None.
Proof.
  induction ls as [|raw ls IH]; simpl; [discriminate|].
  destruct (data_line float h raw) eqn:Hd; [|discriminate].
  unfold row_of. destruct (floats float (Str.split (Str.strip raw)))
    as [row| |] eqn:Hr; cbn [bind].
  - destruct (collect float h ls) as [[rs k]| |]; cbn [bind];
      try discriminate.
    intros [= <-]. destruct (IH eq_refl) as (He & l & p & Hin & Hl & Hp).
    split; [exact He|]. exists l, p. split; [now right | exact (conj Hl Hp)].
  - intros [= <-]. destruct (floats_Raise_inv _ _ Hr) as (He & p & Hin & Hp).
    split; [exact He|]. exists raw, p. split; [now left | now split].
  - discriminate.
Qed.

Lemma data_line_numeric_first (h : list string) (l : string) :
  data_line float h l = true ->
  Str.is_empty (Str.strip l) = false /\
  exists p0 ps v, Str.split (Str.strip l) = p0 :: ps /\ float p0 = Some v.
Proof.
  unfold data_line, is_blank, numeric. intros H.
  apply andb_prop in H as [H _]. apply andb_prop in H as [Hb Hn].
  apply negb_true_iff in Hb. split; [exact Hb|].
  destruct (Str.split (Str.strip l)) as [|p0 ps]; [discriminate|].
  destruct (float p0) as [v|] eqn:Hv; [|discriminate]. now exists p0, ps, v.
Qed.

(** When the scan raises, the input has a line with a numeric first token
    and a token that does not convert. *)
Lemma segment_Raise_inv (ls : list string) (e : exn) :
  segment float ls = Raise e ->
  e = ValueError /\
  exists l p, In l ls
              /\ (exists p0 ps v, Str.split (Str.strip l) = p0 :: ps
                                  /\ float p0 = Some v)
              /\ In p (Str.split (Str.strip l)) /\ float p = None.
Proof.
  revert e. apply segment_blocks_ind with
    (P := fun ls (o : outcome (list (Run F))) => forall e, o = Raise e ->
            e = ValueError /\
            exists l p, In l ls
              /\ (exists p0 ps v, Str.split (Str.strip l) = p0 :: ps
                                  /\ float p0 = Some v)
              /\ In p (Str.split (Str.strip l)) /\ float p = None);
    clear ls.
  - discriminate.
  - intros raw ls _ IH e H. destruct (IH e H) as (He & l & p & Hin & Hrest).
    split; [exact He|]. exists l, p. split; [now right | exact Hrest].
  - intros raw ls e0 _ Hc e [= <-].
    destruct (collect_Raise_inv _ _ _ Hc) as (He & l & p & Hin & Hd & Hp).
    split; [exact He|]. exists l, p. split; [now right|].
    split; [exact (proj2 (data_line_numeric_first _ _ Hd)) | exact Hp].
  - discriminate.
  - intros raw ls rs k _ _ IH e H.
    destruct (segment float (skipn k ls)) as [runs'| |] eqn:Hs;
      cbn [bind] in H; try discriminate.
    injection H as <-. destruct (IH e0 eq_refl) as (He & l & p & Hin & Hrest).
    split; [exact He|]. exists l, p.
    split; [right; now apply In_skipn with (k := k) | exact Hrest].
Qed.

(** Every run takes its header line and every row takes its own line:
    there are no more runs and rows than lines. *)
Lemma segment_count (ls : list string) (runs : list (Run F)) :
  segment float ls = Ret runs ->
  length runs + length (concat (map rows runs)) <= length ls.
Proof.
  revert runs. apply segment_blocks_ind with
    (P := fun ls o => forall runs : list (Run F), o = Ret runs ->
            length runs + length (concat (map rows runs)) <= length ls);
    clear ls.
  - intros runs [= <-]. simpl. lia.
  - intros raw ls _ IH runs H. specialize (IH runs H). simpl. lia.
  - discriminate.
  - discriminate.
  - intros raw ls rs k _ Hc IH runs H.
    destruct (segment float (skipn k ls)) as [runs'| |]; cbn [bind] in H;
      try discriminate.
    injection H as <-. specialize (IH runs' eq_refl).
    destruct (collect_bound float _ _ _ _ Hc) as [Hk Hlen].
    rewrite rows_emit_app, !length_app. rewrite length_skipn in IH.
    assert (length (emit (header_of raw) rs) <= 1)
      by (destruct rs; simpl; lia).
    simpl. lia.
Qed.

End SegmenterMore.

(** Every token that [split] gives is not empty and holds no whitespace. *)
Lemma split_tokens (s : string) :
  Forall (fun w => is_token w = true) (Str.split s).
Proof.
  induction s as [|c s IH]; [constructor|].
  destruct s as [|c' r].
  - simpl. destruct (Str.isspace c) eqn:Hc; constructor; [|constructor].
    unfold is_token. simpl. now rewrite Hc.
  - rewrite StrFacts.split_unfold.
    destruct (Str.isspace c) eqn:Hc; [exact IH|].
    assert (H1 : is_token (String c EmptyString) = true)
      by (unfold is_token; simpl; now rewrite Hc).
    destruct (Str.isspace c'); [now constructor|].
    destruct (Str.split (String c' r)) as [|w ws]; [now repeat constructor|].
    inversion IH as [|? ? Hw Hws]; subst. constructor; [|exact Hws].
    unfold is_token in *. simpl. rewrite Hc. simpl.
    apply andb_prop in Hw as [_ Hw]. exact Hw.
Qed.

(** X1. A file in which every line is blank or has a first token that
    does not convert has no run, and [main] says so and does nothing else,
    whatever its arguments are. *)
Theorem no_data_line_no_run {F : Type} (float : string -> option F)
    (ops : SeriesOps F) (args : Args.t F) (content : string) :
  Forall (never_data float) (Str.readlines content) ->
  parse_lammps_log float content = Ret []
  /\ main float ops args content = Ret [NoRunsFound].
Proof.
  intros H.
  assert (E : parse_lammps_log float content = Ret []).
  { rewrite parse_lammps_log_segment. now apply segment_no_data. }
  split; [exact E|]. unfold main. now rewrite E.
Qed.

Lemma no_data_line_no_run_witness :
  parse_lammps_log Float64.py_float MoreExamples.text_only_log = Ret []
  /\ main Float64.py_float Float64.ops Examples.example_args
       MoreExamples.text_only_log = Ret [NoRunsFound].
Proof.
  apply (no_data_line_no_run Float64.py_float Float64.ops
           Examples.example_args MoreExamples.text_only_log).
  assert (E : Str.readlines MoreExamples.text_only_log =
              [("LAMMPS (2 Aug 2023)" ++ String Str.LF "")%string;
               ("Step counts follow" ++ String Str.LF "")%string;
               ("Loop time of 1.5" ++ String Str.LF "")%string;
               String Str.LF ""])
    by (vm_compute; reflexivity).
  rewrite E. repeat apply Forall_cons; try apply Forall_nil.
  - right. exists "LAMMPS"%string, ["(2"; "Aug"; "2023)"]%string.
    split; vm_compute; reflexivity.
  - right. exists "Step"%string, ["counts"; "follow"]%string.
    split; vm_compute; reflexivity.
  - right. exists "Loop"%string, ["time"; "of"; "1.5"]%string.
    split; vm_compute; reflexivity.
  - left. vm_compute. reflexivity.
Defined.



(** X3. The runs before and after a line that is blank or has a first
    token that does not convert do not depend on each other: the runs of
    the file are those of the lines before that line followed by those of
    the lines from it on, and an error on either side is an error of the
    whole. *)
Theorem runs_split_at_a_stop_line {F : Type} (float : string -> option F)
    (pre : list string) (stop : string) (rest : list string) :
  never_data float stop ->
  parse_lines float (pre ++ stop :: rest) =
  r1 <- parse_lines float pre ;;
  r2 <- parse_lines float (stop :: rest) ;; Ret (r1 ++ r2).
Proof.
  intros Hs. rewrite !parse_lines_segment. now apply segment_app_stop.
Qed.

(** A block, a line of text, and another block. *)
Lemma runs_split_at_a_stop_line_witness :
  parse_lines Float64.py_float
    ([("Step Temp" ++ String Str.LF "")%string;
      ("0 300.5" ++ String Str.LF "")%string]
     ++ ("Loop time of 1.5" ++ String Str.LF "")%string
        :: [("Step Press" ++ String Str.LF "")%string;
            ("5 1.5" ++ String Str.LF "")%string])
  = Ret ([mkRun ["Step"; "Temp"]%string [[0%float; 300.5%float]]]
         ++ [mkRun ["Step"; "Press"]%string [[5%float; 1.5%float]]]).
Proof.
  refine (eq_trans
    (runs_split_at_a_stop_line Float64.py_float
       [("Step Temp" ++ String Str.LF "")%string;
        ("0 300.5" ++ String Str.LF "")%string]
       ("Loop time of 1.5" ++ String Str.LF "")%string
       [("Step Press" ++ String Str.LF "")%string;
        ("5 1.5" ++ String Str.LF "")%string] _) _).
  - right. exists "Loop"%string, ["time"; "of"; "1.5"]%string.
    split; vm_compute; reflexivity.
  - vm_compute. reflexivity.
Defined.

(** X4. The columns of every run are the tokens of a line of the input
    that starts with [Step]: there is at least one, the first starts with
    [Step], and none is empty or holds whitespace. *)
Theorem columns_are_tokens_of_a_header {F : Type}
    (float : string -> option F) (content : string) (runs : list (Run F)) :
  parse_lammps_log float content = Ret runs ->
  Forall (fun r =>
            (exists hl, In hl (Str.readlines content)
                        /\ Str.startswith (Str.strip hl) "Step" = true
                        /\ columns r = Str.split (Str.strip hl))
            /\ (exists w ws, columns r = w :: ws
                             /\ Str.startswith w "Step" = true)
            /\ Forall (fun c => is_token c = true) (columns r))
    runs.
Proof.
  intros H. rewrite parse_lammps_log_segment in H.
  apply Forall_impl with (2 := segment_columns float _ _ H).
  intros r (hl & Hin & Hh & Hc). split; [|split].
  - now exists hl.
  - destruct (StrFacts.split_startswith_Step _ Hh) as (w & ws & E & Hw).
    exists w, ws. split; [|exact Hw]. rewrite Hc. exact E.
  - rewrite Hc. apply split_tokens.
Qed.

Lemma columns_are_tokens_of_a_header_witness :
  Forall (fun r : Run float =>
            (exists hl, In hl (Str.readlines MoreExamples.adjacent_log)
                        /\ Str.startswith (Str.strip hl) "Step" = true
                        /\ columns r = Str.split (Str.strip hl))
            /\ (exists w ws, columns r = w :: ws
                             /\ Str.startswith w "Step" = true)
            /\ Forall (fun c => is_token c = true) (columns r))
    [mkRun ["Step"; "Temp"]%string [[0%float; 300.5%float]];
     mkRun ["Step"; "Press"]%string
       [[5%float; 1.5%float]; [10%float; 2.5%float]]].
Proof.
  apply (columns_are_tokens_of_a_header Float64.py_float
           MoreExamples.adjacent_log).
  vm_compute. reflexivity.
Defined.

(** X5. The scan reads each line through [strip] only: two lists of lines
    that are the same once each line is stripped (other indentation, other
    blanks or line ends at the end of a line) give the same result. *)
Theorem scan_reads_stripped_lines {F : Type} (float : string -> option F)
    (ls1 ls2 : list string) :
  map Str.strip ls1 = map Str.strip ls2 ->
  parse_lines float ls1 = parse_lines float ls2.
Proof.
  intros H. rewrite !parse_lines_segment.
  exact (segment_from_strip float ls1 ls2 H 0).
Qed.

Lemma scan_reads_stripped_lines_witness :
  parse_lammps_log Float64.py_float MoreExamples.indented_log =
  parse_lammps_log Float64.py_float Examples.small_log.
Proof.
  refine (eq_trans
    (scan_reads_stripped_lines Float64.py_float
       (Str.readlines MoreExamples.indented_log)
       (firstn 3 (Str.readlines Examples.small_log)) _) _);
    vm_compute; reflexivity.
Defined.

(** X6. The only exception of [parse_lammps_log] is [ValueError], and it
    has a culprit: a line of the input whose first token converts and one
    of whose tokens does not. So a file in which every line with a first
    token that converts has only tokens that convert is parsed without an
    error. *)
Theorem ValueError_has_a_culprit {F : Type} (float : string -> option F)
    (content : string) :
  (forall e, parse_lammps_log float content = Raise e ->
     e = ValueError /\
     exists l p, In l (Str.readlines content)
                 /\ (exists p0 ps v, Str.split (Str.strip l) = p0 :: ps
                                     /\ float p0 = Some v)
                 /\ In p (Str.split (Str.strip l)) /\ float p = None)
  /\
  ((forall l p0 ps v p,
      In l (Str.readlines content) ->
      Str.split (Str.strip l) = p0 :: ps -> float p0 = Some v ->
      In p (Str.split (Str.strip l)) -> float p <> None) ->
   exists runs, parse_lammps_log float content = Ret runs).
Proof.
  rewrite parse_lammps_log_segment. split.
  - intros e. apply segment_Raise_inv.
  - intros Hclean.
    destruct (segment_cases float (Str.readlines content)) as [H | H];
      [exact H|].
    destruct (segment_Raise_inv float _ _ H)
      as (_ & l & p & Hin & (p0 & ps & v & Hs & Hv) & Hp & Hnone).
    exfalso. exact (Hclean l p0 ps v p Hin Hs Hv Hp Hnone).
Qed.

(** The culprit of [bad_token_log] is the token [abc] of its second line. *)
Lemma ValueError_has_a_culprit_witness :
  exists l p, In l (Str.readlines Examples.bad_token_log)
              /\ In p (Str.split (Str.strip l))
              /\ Float64.py_float p = None.
Proof.
  assert (E : parse_lammps_log Float64.py_float Examples.bad_token_log
              = Raise ValueError) by (vm_compute; reflexivity).
  destruct (proj1 (ValueError_has_a_culprit Float64.py_float
                     Examples.bad_token_log) ValueError E)
    as (_ & l & p & Hin & _ & Hp & Hnone).
  exists l, p. exact (conj Hin (conj Hp Hnone)).
Defined.

(** X7. Every run takes a header line of its own and every row a data
    line of its own: the runs and their rows together are no more than the
    lines of the file. *)
Theorem no_more_runs_and_rows_than_lines {F : Type}
    (float : string -> option F) (content : string) (runs : list (Run F)) :
  parse_lammps_log float content = Ret runs ->
  length runs + length (concat (map rows runs))
  <= length (Str.readlines content).
Proof.
  intros H. rewrite parse_lammps_log_segment in H.
  exact (segment_count float _ _ H).
Qed.

Lemma no_more_runs_and_rows_than_lines_witness :
  2 + 5 <= length (Str.readlines Examples.example_log).
Proof.
  apply (no_more_runs_and_rows_than_lines Float64.py_float
           Examples.example_log
           [mkRun ["Step"; "Temp"; "Press"]%string
              [[0; 300; 1]; [100; 301.5; 0x1.199999999999ap+0];
               [200; 0x1.2bccccccccccdp+8; 0x1.ccccccccccccdp-1]]%float;
            mkRun ["Step"; "Temp"; "Press"]%string
              [[0; 310; 2]; [100; 311; 0x1.0cccccccccccdp+1]]%float]).
  vm_compute. reflexivity.
Defined.

(** ** Further properties of the query engine *)

Section QueryMore.

Context {F : Type}.
Variable ops : SeriesOps F.

(** A run with a row and a column holds a number. *)
Lemma run_inhabited (df : Run F) :
  rectangular df -> rows df <> [] -> columns df <> [] -> inhabited F.
Proof.
  unfold rectangular. intros Hr Hrows Hcols.
  destruct (rows df) as [|row rws]; [contradiction|].
  inversion Hr as [|? ? Hlen _]; subst.
  destruct row as [|v row]; [|exact (inhabits v)].
  destruct (columns df); [contradiction | discriminate].
Qed.

(** The view of a run with no row is the run. *)
Lemma x_range_filter_no_rows (args : Args.t F) (df : Run F) :
  rows df = [] -> contains (columns df) (Args.x args) = true ->
  x_range_filter ops args df = Ret df.
Proof.
  intros Hrows Hx. destruct df as [cols rws]. cbn [rows columns] in *.
  subst rws. unfold x_range_filter, column. cbn [rows columns].
  destruct (contains_index _ _ Hx) as (j & E & _).
  destruct (Args.x_min args), (Args.x_max args);
    rewrite ?E; cbn [bind cells select rows columns map combine filter];
    rewrite ?E; reflexivity.
Qed.

(** The view of a rectangular run that has the column [x]. *)
Lemma x_range_filter_returns (args : Args.t F) (df : Run F) :
  rectangular df -> contains (columns df) (Args.x args) = true ->
  exists df_sel,
    x_range_filter ops args df = Ret df_sel
    /\ columns df_sel = columns df
    /\ rectangular df_sel
    /\ length (rows df_sel) <= length (rows df)
    /\ (forall row, In row (rows df_sel) -> In row (rows df))
    /\ x_range_filter ops args df_sel = Ret df_sel.
Proof.
  intros Hr Hx. destruct (rows df) as [|row0 rws0] eqn:Erows.
  - exists df. rewrite (x_range_filter_no_rows args df Erows Hx), Erows.
    repeat split; auto.
  - assert (Hi : inhabited F).
    { apply (run_inhabited df Hr); [now rewrite Erows|].
      now apply contains_nonempty with (name := Args.x args). }
    destruct Hi as [d]. rewrite <- Erows.
    set (p := fun row => in_range ops (Args.x_min args) (Args.x_max args)
                           (cell d df (Args.x args) row)).
    exists (mkRun (columns df) (filter p (rows df))).
    pose proof (rectangular_filter df p Hr) as Hr'.
    split; [exact (x_range_filter_rows ops d args df Hr Hx)|].
    split; [reflexivity|]. split; [exact Hr'|].
    split; [apply filter_length_le|].
    split; [intros row Hrow; cbn [rows] in Hrow;
            now apply filter_In in Hrow as [Hrow _]|].
    rewrite (x_range_filter_rows ops d args _ Hr' Hx). cbn [rows columns].
    do 2 f_equal. rewrite filter_twice. apply filter_ext.
    intros row. unfold p, cell. cbn [columns]. now destruct (in_range _ _ _ _).
Qed.

(** The averaging step returns on a rectangular view with the column [x]. *)
Lemma averages_returns (args : Args.t F) (df df_sel : Run F) (d : F) :
  rectangular df_sel -> columns df_sel = columns df ->
  contains (columns df) (Args.x args) = true ->
  exists avg_out, averages ops args df df_sel = Ret avg_out.
Proof.
  intros Hr Hcols Hx.
  destruct (given (Args.avg_cols args)) as [|c cs] eqn:Eg.
  { exists []. unfold averages. now rewrite Eg. }
  destruct (missing df (given (Args.avg_cols args))) as [|m ms] eqn:Em.
  - eexists. apply (averages_present ops d args df df_sel Hr Hcols Hx);
      [now rewrite Eg | exact Em].
  - eexists. apply averages_missing. now rewrite Em.
Qed.

(** The plot step returns when no [y] column is missing. *)
Lemma plot_returns (args : Args.t F) (df df_sel : Run F) (d : F) :
  rectangular df_sel -> columns df_sel = columns df ->
  contains (columns df) (Args.x args) = true ->
  missing df (given (Args.y args)) = [] ->
  exists plot_out, plot args df_sel = Ret plot_out.
Proof.
  intros Hr Hcols Hx Hm.
  destruct (given (Args.y args)) as [|c cs] eqn:Eg.
  { exists []. unfold plot. now rewrite Eg. }
  eexists. apply (plot_present d args df df_sel Hr Hcols Hx);
    [now rewrite Eg | now rewrite Eg].
Qed.

(** [main] returns on runs that are well formed. *)
Lemma query_returns (args : Args.t F) (runs : list (Run F)) :
  Forall well_formed runs -> exists out, query ops args runs = Ret out.
Proof.
  intros Hwf. unfold query. destruct runs as [|r0 runs']; [now eexists|].
  destruct (Args.list args && _ && _); [now eexists|].
  destruct ((Args.run args <? 1)%Z || _)%bool eqn:Hrange; [now eexists|].
  apply orb_false_iff in Hrange as [H1 H2].
  apply Z.ltb_ge in H1. apply Z.ltb_ge in H2.
  destruct (nth_error (r0 :: runs') (Z.to_nat (Args.run args - 1)))
    as [df|] eqn:Hn.
  2:{ apply nth_error_None in Hn. lia. }
  unfold getitem. rewrite Hn. cbn [bind].
  assert (Hdf : well_formed df).
  { rewrite Forall_forall in Hwf. apply Hwf. now apply nth_error_In in Hn. }
  destruct Hdf as [Hrows Hr]. unfold on_run.
  destruct (contains (columns df) (Args.x args)) eqn:Hx; [|now eexists].
  cbn [negb].
  destruct (x_range_filter_returns args df Hr Hx)
    as (df_sel & -> & Hcols & Hr' & _). cbn [bind].
  destruct (run_inhabited df Hr Hrows
              (contains_nonempty _ _ Hx)) as [d].
  unfold respond. destruct (empty df_sel); [now eexists|].
  destruct (no_column _ && no_column _); [now eexists|].
  destruct (missing df (given (Args.y args))) eqn:Hm; [|now eexists].
  destruct (averages_returns args df df_sel d Hr' Hcols Hx) as [avg_out ->].
  destruct (plot_returns args df df_sel d Hr' Hcols Hx Hm) as [plot_out ->].
  now eexists.
Qed.

(** What [main] writes with [--list] is the listing and then what it
    writes without. *)
Lemma respond_listing (args : Args.t F) (runs : list (Run F))
    (df df_sel : Run F) :
  respond ops args runs df df_sel =
  out <- respond ops (set_list args false) runs df df_sel ;;
  Ret (listing args runs ++ out).
Proof.
  unfold respond.
  change (listing (set_list args false) runs) with (@nil (output F)).
  change (averages ops (set_list args false) df df_sel)
    with (averages ops args df df_sel).
  change (plot (set_list args false) df_sel) with (plot args df_sel).
  cbn [set_list Args.y Args.avg_cols Args.run app].
  destruct (empty df_sel); [reflexivity|].
  destruct (no_column _ && no_column _); [reflexivity|].
  destruct (missing df (given (Args.y args))); [|reflexivity].
  destruct (averages ops args df df_sel); cbn [bind]; try reflexivity.
  destruct (plot args df_sel); reflexivity.
Qed.

Lemma query_listing (args : Args.t F) (runs : list (Run F)) :
  runs <> [] ->
  is_none (Args.y args) && is_none (Args.avg_cols args) = false ->
  query ops args runs =
  out <- query ops (set_list args false) runs ;;
  Ret (listing args runs ++ out).
Proof.
  intros Hne Hreq. unfold query. destruct runs as [|r0 runs']; [contradiction|].
  cbn [set_list Args.list Args.y Args.avg_cols Args.run andb].
  rewrite <- andb_assoc, Hreq, andb_false_r.
  change (listing (set_list args false) (r0 :: runs'))
    with (@nil (output F)).
  destruct ((Args.run args <? 1)%Z || _)%bool; [reflexivity|].
  destruct (getitem (r0 :: runs') _) as [df| |]; cbn [bind]; try reflexivity.
  unfold on_run.
  change (listing (set_list args false) (r0 :: runs'))
    with (@nil (output F)).
  change (x_range_filter ops (set_list args false) df)
    with (x_range_filter ops args df).
  cbn [set_list Args.x Args.run app].
  destruct (contains (columns df) (Args.x args)); cbn [negb];
    [|reflexivity].
  destruct (x_range_filter ops args df) as [df_sel| |]; cbn [bind];
    try reflexivity.
  apply respond_listing.
Qed.

End QueryMore.

Lemma nth_error_enumerate {A : Type} (l : list A) (start i : nat) (a : A) :
  nth_error l i = Some a ->
  nth_error (combine (seq start (length l)) l) i = Some (start + i, a).
Proof.
  revert start i. induction l as [|b l IH]; intros start [|i] H;
    try discriminate; simpl in *.
  - injection H as ->. f_equal. f_equal. lia.
  - rewrite (IH (S start) i H). f_equal. f_equal. lia.
Qed.

(** X8. [main] ends with messages, never with [IndexError] or [KeyError]:
    when the file is parsed and the columns of each run have distinct
    names, [main] returns what it wrote, for all arguments; the one
    exception that can end [main] is the [ValueError] of the parse. *)
Theorem main_ends_with_a_message {F : Type} (float : string -> option F)
    (ops : SeriesOps F) (args : Args.t F) (content : string) :
  (forall runs,
     parse_lammps_log float content = Ret runs ->
     Forall (fun r => NoDup (columns r)) runs ->
     exists out, main float ops args content = Ret out)
  /\
  (forall e,
     parse_lammps_log float content = Raise e ->
     e = ValueError /\ main float ops args content = Raise ValueError).
Proof.
  split.
  - intros runs H _. unfold main. rewrite H. cbn [bind].
    apply query_returns. rewrite parse_lammps_log_segment in H.
    exact (segment_well_formed float _ _ H).
  - intros e H. assert (He : e = ValueError).
    { rewrite parse_lammps_log_segment in H.
      destruct (segment_cases float (Str.readlines content)) as [[r E] | E];
        congruence. }
    split; [exact He|]. unfold main. rewrite H, He. reflexivity.
Qed.

(** A column that the run has not, a run index out of range. *)
Lemma main_ends_with_a_message_witness :
  exists out,
    main Float64.py_float Float64.ops
      (Args.mk "log.lammps" 7 "Bogus" (Some ["Nope"%string]) None None None
         false)
      Examples.small_log = Ret out.
Proof.
  apply (proj1 (main_ends_with_a_message Float64.py_float Float64.ops
                  (Args.mk "log.lammps" 7 "Bogus" (Some ["Nope"%string])
                     None None None false)
                  Examples.small_log)
           [mkRun ["Step"; "Temp"]%string
              [[0%float; 300.5%float]; [100%float; 301.5%float]]]).
  - vm_compute. reflexivity.
  - repeat constructor; simpl; intuition discriminate.
Defined.

(** X9. With a plot or an average asked for, [--list] adds the listing in
    front of what [main] writes without it, and changes nothing else. *)
Theorem list_adds_the_listing_in_front {F : Type}
    (float : string -> option F) (ops : SeriesOps F) (args : Args.t F)
    (content : string) (runs : list (Run F)) :
  parse_lammps_log float content = Ret runs ->
  runs <> [] ->
  is_none (Args.y args) && is_none (Args.avg_cols args) = false ->
  main float ops args content =
  out <- main float ops (set_list args false) content ;;
  Ret (listing args runs ++ out).
Proof.
  intros H Hne Hreq. unfold main. rewrite H. cbn [bind].
  now apply query_listing.
Qed.

Lemma list_adds_the_listing_in_front_witness :
  main Float64.py_float Float64.ops
    (set_list Examples.example_args true) Examples.small_log
  = Ret ([FoundRuns 1 "log.lammps"; RunListing 1 2 ["Step"; "Temp"]%string]
         ++ [AveragesHeader 1 "Step" 0%float 100%float;
             Average "Temp" 301%float]).
Proof.
  refine (eq_trans
    (list_adds_the_listing_in_front Float64.py_float Float64.ops
       (set_list Examples.example_args true) Examples.small_log
       [mkRun ["Step"; "Temp"]%string
          [[0%float; 300.5%float]; [100%float; 301.5%float]]] _ _ _) _).
  - vm_compute. reflexivity.
  - discriminate.
  - reflexivity.
  - vm_compute. reflexivity.
Defined.

(** X10. The listing of [--list] starts with the number of runs and then
    has one entry for each run, in file order: the entry of the run at
    position [i] (from 0) carries the index [i + 1], the number of rows of
    the run and its columns. With no plot and no average asked for, and at
    least one run, that is all [main] writes: the run index and [x] are
    not looked at. *)
Theorem listing_has_an_entry_for_each_run {F : Type} (ops : SeriesOps F)
    (args : Args.t F) (runs : list (Run F)) :
  Args.list args = true ->
  (nth_error (listing args runs) 0
   = Some (FoundRuns (length runs) (Args.logfile args)))
  /\ length (listing args runs) = S (length runs)
  /\ (forall i df,
        nth_error runs i = Some df ->
        nth_error (listing args runs) (S i)
        = Some (RunListing (S i) (length (rows df)) (columns df)))
  /\ (runs <> [] -> Args.y args = None -> Args.avg_cols args = None ->
      query ops args runs = Ret (listing args runs)).
Proof.
  intros Hl. unfold listing. rewrite Hl. repeat split.
  - cbn [length]. now rewrite length_map, length_combine, length_seq, Nat.min_id.
  - intros i df Hi. cbn [nth_error].
    rewrite nth_error_map, (nth_error_enumerate runs 1 i df Hi).
    reflexivity.
  - intros Hne Hy Ha. unfold query. destruct runs; [contradiction|].
    rewrite Hl, Hy, Ha. cbn [is_none andb]. unfold listing. now rewrite Hl.
Qed.

Lemma listing_has_an_entry_for_each_run_witness :
  query Float64.ops
    (Args.mk "log.lammps" 9 "Bogus" None None None None true)
    [mkRun ["Step"; "Temp"]%string [[0%float; 300.5%float]];
     mkRun ["Step"; "Press"]%string
       [[5%float; 1.5%float]; [10%float; 2.5%float]]]
  = Ret [FoundRuns 2 "log.lammps";
         RunListing 1 1 ["Step"; "Temp"]%string;
         RunListing 2 2 ["Step"; "Press"]%string].
Proof.
  refine (proj2 (proj2 (proj2
    (listing_has_an_entry_for_each_run Float64.ops
       (Args.mk "log.lammps" 9 "Bogus" None None None None true)
       [mkRun ["Step"; "Temp"]%string [[0%float; 300.5%float]];
        mkRun ["Step"; "Press"]%string
          [[5%float; 1.5%float]; [10%float; 2.5%float]]] _))) _ _ _).
  - reflexivity.
  - discriminate.
  - reflexivity.
  - reflexivity.
Defined.

(** X11. A run index below 1 or above the number of runs is reported with
    that number and [main] does nothing else: index 0 and negative
    indices do not select a run from the end. An index from 1 to the
    number of runs selects the run at that position, counted from 1. *)
Theorem run_index_is_checked {F : Type} (ops : SeriesOps F)
    (args : Args.t F) (runs : list (Run F)) :
  runs <> [] ->
  Args.list args && is_none (Args.y args) && is_none (Args.avg_cols args)
    = false ->
  ((Args.run args < 1 \/ Z.of_nat (length runs) < Args.run args)%Z ->
   query ops args runs =
   Ret (listing args runs ++ [OutOfRange (Args.run args) (length runs)]))
  /\
  ((1 <= Args.run args <= Z.of_nat (length runs))%Z ->
   exists df,
     nth_error runs (Z.to_nat (Args.run args - 1)) = Some df
     /\ query ops args runs = on_run ops args runs df).
Proof.
  intros Hne Hl. split.
  - intros Hr. unfold query. destruct runs as [|r0 runs']; [contradiction|].
    rewrite Hl.
    replace ((Args.run args <? 1)%Z
             || (Z.of_nat (length (r0 :: runs')) <? Args.run args)%Z)
      with true; [reflexivity|].
    symmetry. apply orb_true_iff.
    destruct Hr as [Hr | Hr]; [left | right]; now apply Z.ltb_lt.
  - intros Hr.
    destruct (nth_error runs (Z.to_nat (Args.run args - 1))) as [df|] eqn:Hn.
    + exists df. split; [reflexivity|].
      apply query_selects. repeat split; auto; lia.
    + apply nth_error_None in Hn. lia.
Qed.

Lemma run_index_is_checked_witness :
  query Float64.ops
    (Args.mk "log.lammps" 0 "Step" (Some ["Temp"%string]) None None None
       false)
    [mkRun ["Step"; "Temp"]%string [[0%float; 300.5%float]]]
  = Ret ([] ++ [OutOfRange 0 1]).
Proof.
  refine (proj1
    (run_index_is_checked Float64.ops
       (Args.mk "log.lammps" 0 "Step" (Some ["Temp"%string]) None None None
          false)
       [mkRun ["Step"; "Temp"]%string [[0%float; 300.5%float]]] _ _) _).
  - discriminate.
  - reflexivity.
  - left. reflexivity.
Defined.

(** X12. When [main] reaches the plot (a run is selected, its rows are as
    long as its header and its column names are distinct, [x] is a
    column, the view has a row, no [y] column is missing), the figure
    comes last, after what the averaging step wrote. It has one line for
    each [y] column, in the order asked, each made of the values of that
    column over the rows of the view, against the [x] values of the same
    rows; its title is marked as filtered exactly when a bound was
    given. *)
Theorem figure_has_a_line_for_each_y {F : Type} (ops : SeriesOps F) (d : F)
    (args : Args.t F) (runs : list (Run F)) (df df_sel : Run F) :
  selects args runs df ->
  rectangular df -> NoDup (columns df) -> In (Args.x args) (columns df) ->
  x_range_filter ops args df = Ret df_sel ->
  rows df_sel <> [] ->
  given (Args.y args) <> [] ->
  missing df (given (Args.y args)) = [] ->
  exists avg_out,
    averages ops args df df_sel = Ret avg_out
    /\ query ops args runs =
       Ret (listing args runs ++ avg_out
            ++ [Figure
                  (mkFigure (Args.x args) (given (Args.y args))
                     (map (cell d df_sel (Args.x args)) (rows df_sel))
                     (map (fun col =>
                             (col, map (cell d df_sel col) (rows df_sel)))
                        (given (Args.y args)))
                     (Args.logfile args) (Args.run args)
                     (negb (is_none (Args.x_min args))
                      || negb (is_none (Args.x_max args))))]).
Proof.
  intros Hsel Hr _ Hx Hf Hne Hy Hm. apply contains_In in Hx.
  pose proof (x_range_filter_columns ops args df df_sel Hf) as Hcols.
  assert (Hr' : rectangular df_sel).
  { rewrite (x_range_filter_rows ops d args df Hr Hx) in Hf.
    injection Hf as <-. now apply rectangular_filter. }
  destruct (averages_returns ops args df df_sel d Hr' Hcols Hx)
    as [avg_out Ha].
  exists avg_out. split; [exact Ha|].
  rewrite (query_selects ops args runs df Hsel).
  rewrite (on_run_view ops args runs df df_sel Hx Hf).
  unfold respond. rewrite (empty_rows ops args df df_sel Hx Hf).
  destruct (rows df_sel) as [|row0 rws0] eqn:Erows; [contradiction|].
  rewrite <- Erows.
  replace (no_column (given (Args.y args))) with false
    by (now destruct (given (Args.y args))).
  cbn [andb]. rewrite Hm, Ha. cbn [bind].
  rewrite (plot_present d args df df_sel Hr' Hcols Hx Hy Hm).
  reflexivity.
Qed.

Lemma figure_has_a_line_for_each_y_witness :
  exists avg_out,
    averages Float64.ops
      (Examples.call (Some ["Temp"%string]) None (Some 50%float) None)
      (mkRun ["Step"; "Temp"]%string [[0; 300.5]; [100; 301.5]]%float)
      (mkRun ["Step"; "Temp"]%string [[0; 300.5]]%float) = Ret avg_out
    /\ query Float64.ops
         (Examples.call (Some ["Temp"%string]) None (Some 50%float) None)
         [mkRun ["Step"; "Temp"]%string [[0; 300.5]; [100; 301.5]]%float]
       = Ret ([] ++ avg_out
              ++ [Figure (mkFigure "Step" ["Temp"%string] [0%float]
                            [("Temp"%string, [300.5%float])]
                            "log.lammps" 1 true)]).
Proof.
  refine (figure_has_a_line_for_each_y Float64.ops nan
    (Examples.call (Some ["Temp"%string]) None (Some 50%float) None)
    [mkRun ["Step"; "Temp"]%string [[0; 300.5]; [100; 301.5]]%float]
    (mkRun ["Step"; "Temp"]%string [[0; 300.5]; [100; 301.5]]%float)
    (mkRun ["Step"; "Temp"]%string [[0; 300.5]]%float)
    _ _ _ _ _ _ _ _).
  - repeat split; vm_compute; congruence.
  - repeat constructor.
  - repeat constructor; simpl; intuition discriminate.
  - left. reflexivity.
  - reflexivity.
  - discriminate.
  - discriminate.
  - reflexivity.
Defined.

(** X13. The filtered view of a run (rows as long as the header, distinct
    column names, [x] one of them) always exists. It has the columns of
    the run, its rows are rows of the run, no more than the run has and
    each as long as the header, and filtering it again with the same
    bounds gives the same view. *)
Theorem view_is_a_stable_part_of_the_run {F : Type} (ops : SeriesOps F)
    (args : Args.t F) (df : Run F) :
  rectangular df -> NoDup (columns df) -> In (Args.x args) (columns df) ->
  exists df_sel,
    x_range_filter ops args df = Ret df_sel
    /\ columns df_sel = columns df
    /\ rectangular df_sel
    /\ length (rows df_sel) <= length (rows df)
    /\ (forall row, In row (rows df_sel) -> In row (rows df))
    /\ x_range_filter ops args df_sel = Ret df_sel.
Proof.
  intros Hr _ Hx. apply contains_In in Hx.
  now apply x_range_filter_returns.
Qed.

Lemma view_is_a_stable_part_of_the_run_witness :
  exists df_sel,
    x_range_filter Float64.ops Examples.example_args
      (mkRun ["Step"; "Temp"]%string
         [[0; 300]; [100; 301.5]; [200; 299.75]]%float) = Ret df_sel
    /\ columns df_sel = ["Step"; "Temp"]%string
    /\ rectangular df_sel
    /\ length (rows df_sel) <= 3
    /\ (forall row, In row (rows df_sel) ->
          In row [[0; 300]; [100; 301.5]; [200; 299.75]]%float)
    /\ x_range_filter Float64.ops Examples.example_args df_sel = Ret df_sel.
Proof.
  refine (view_is_a_stable_part_of_the_run Float64.ops Examples.example_args
    (mkRun ["Step"; "Temp"]%string
       [[0; 300]; [100; 301.5]; [200; 299.75]]%float) _ _ _).
  - repeat constructor.
  - repeat constructor; simpl; intuition discriminate.
  - left. reflexivity.
Defined.

(** X14. When every line of the file that starts with [Step] has pairwise
    distinct tokens, every run that the parse returns has distinct column
    names, at least one row, and rows as long as its header: the runs
    that [main] can select are those for which a column lookup gives one
    column. *)
Theorem distinct_header_names_give_distinct_columns {F : Type}
    (float : string -> option F) (content : string) (runs : list (Run F)) :
  parse_lammps_log float content = Ret runs ->
  Forall (fun hl => is_header hl = true -> NoDup (header_of hl))
    (Str.readlines content) ->
  Forall (fun r => NoDup (columns r) /\ rows r <> [] /\ rectangular r) runs.
Proof.
  intros H Hd. rewrite parse_lammps_log_segment in H.
  pose proof (segment_columns float _ _ H) as Hc.
  pose proof (segment_well_formed float _ _ H) as Hw.
  rewrite Forall_forall in Hc, Hw, Hd. apply Forall_forall. intros r Hr.
  destruct (Hc r Hr) as (hl & Hin & Hh & E).
  destruct (Hw r Hr) as [Hne Hrect].
  split; [|split; assumption].
  rewrite E. now apply Hd.
Qed.

Lemma distinct_header_names_give_distinct_columns_witness :
  Forall (fun r : Run float =>
            NoDup (columns r) /\ rows r <> [] /\ rectangular r)
    [mkRun ["Step"; "Temp"]%string
       [[0%float; 300.5%float]; [100%float; 301.5%float]]].
Proof.
  apply (distinct_header_names_give_distinct_columns Float64.py_float
           Examples.small_log).
  - vm_compute. reflexivity.
  - assert (E : Str.readlines Examples.small_log =
                [("Step Temp" ++ String Str.LF "")%string;
                 ("0 300.5" ++ String Str.LF "")%string;
                 ("100 301.5" ++ String Str.LF "")%string;
                 String Str.LF ""])
      by (vm_compute; reflexivity).
    rewrite E. repeat apply Forall_cons; try apply Forall_nil.
    + intros _.
      assert (E' : header_of ("Step Temp" ++ String Str.LF "")%string
                   = ["Step"; "Temp"]%string) by (vm_compute; reflexivity).
      rewrite E'. repeat constructor; simpl; intuition discriminate.
    + intros Hh. vm_compute in Hh. discriminate.
    + intros Hh. vm_compute in Hh. discriminate.
    + intros Hh. vm_compute in Hh. discriminate.
Defined.
